(** * Vision Assist: the scan page and the chat page controllers

    A shallow embedding of [src/app/scan/page.tsx] (the component [ScanPage])
    and of the chat page (the component [GPTPage]).

    How the components are read.  A React function component is a function
    that is run once per render.  Everything it declares with [const]
    ([retryCount], [cameraActive], [messages], the handlers [processImage],
    [captureImage], ...) belongs to that one run: a handler sees the values of
    the render that created it, whatever the state setters are asked to store
    afterwards.  So a handler is embedded as a function of a [Render] record
    (the values of its render), and what it does is a trace of events: calls
    of state setters ([Put]) and calls of the outside world ([Do]: speech,
    toasts, requests, timers).  Setter calls reach the live state through
    [commit]; they never change the [Render] the handler runs in.

    A callback handed to [setTimeout] is recorded in the trace; [event_loop]
    fires pending callbacks in the render that created them. *)

From Stdlib Require Import String Ascii List Bool Arith Lia DecimalString.
Import ListNotations.

Local Open Scope string_scope.
Local Open Scope list_scope.

(** ** JavaScript strings *)

Module Js.

(** The double quote character, for literals that contain it. *)
Definition dquote : ascii := "034"%char.

Definition quoted (s : string) : string :=
  String dquote (String.append s (String dquote EmptyString)).

(** A template literal: its pieces, concatenated. *)
Definition template (parts : list string) : string :=
  String.concat EmptyString parts.

(** [String(n)] for a non-negative integer. *)
Definition of_nat (n : nat) : string :=
  NilEmpty.string_of_uint (Nat.to_uint n).

Definition lower_char (c : ascii) : ascii :=
  let n := nat_of_ascii c in
  if ((65 <=? n) && (n <=? 90))%nat then ascii_of_nat (n + 32) else c.

(** [s.toLowerCase()], on the ASCII letters; other bytes are kept. *)
Fixpoint toLowerCase (s : string) : string :=
  match s with
  | EmptyString => EmptyString
  | String c s' => String (lower_char c) (toLowerCase s')
  end.

(** [s.includes(needle)]. *)
Fixpoint includes (s needle : string) : bool :=
  String.prefix needle s ||
  match s with
  | EmptyString => false
  | String _ s' => includes s' needle
  end.

(** [s.split(sep)] for a separator of one character. *)
Fixpoint split (sep : ascii) (s : string) : list string :=
  match s with
  | EmptyString => [EmptyString]
  | String c s' =>
      if Ascii.eqb c sep then EmptyString :: split sep s'
      else match split sep s' with
           | [] => [String c EmptyString]
           | piece :: pieces => String c piece :: pieces
           end
  end.

(** Truthiness of a value that is a string or [undefined]: the empty string
    and [undefined] are falsy. *)
Definition truthy (v : option string) : bool :=
  match v with
  | Some (String _ _) => true
  | _ => false
  end.

(** [a || b] where [a] is a string or [undefined]. *)
Definition or_else (a : option string) (b : string) : string :=
  match a with
  | Some (String c s) => String c s
  | _ => b
  end.

(** An argument a handler may receive: nothing, a string, or the click event
    a button passes to its [onClick] handler. *)
Inductive Arg : Type :=
| Undefined
| Str (s : string)
| ClickEvent.

Definition arg_truthy (a : Arg) : bool :=
  match a with
  | Undefined => false
  | Str s => truthy (Some s)
  | ClickEvent => true
  end.

(** [String(a)]. *)
Definition to_string (a : Arg) : string :=
  match a with
  | Undefined => "undefined"
  | Str s => s
  | ClickEvent => "[object Object]"
  end.

(** A value of [Math.random()]: a number in the interval from 0 (included)
    to 1 (excluded), kept as the fraction [num/den]. *)
Record Random : Type := {
  num : nat;
  den : nat;
  in_range : (num <? den)%nat = true
}.

(** [Math.floor(u * n)]. *)
Definition floor_times (u : Random) (n : nat) : nat :=
  (num u * n) / den u.

End Js.

(** ** Events *)

Inductive Variant : Type := DefaultVariant | Destructive.

Inductive Role : Type := User | Assistant.

Record Message : Type := {
  role : Role;
  content : string
}.

(** The JSON body of a request. *)
Inductive Body : Type :=
| AnalyzeBody (image prompt : string)
| ChatBody (messages : list Message).

(** What [setTimeout] is given: the call its callback makes. *)
Inductive Callback : Type :=
| RetryProcessImage (imageBase64 : string) (question : option string)
| RetryHandleUserMessage (message : string).

(** Calls of the outside world. *)
Inductive Effect : Type :=
| Speak (text : string)
| StopSpeaking
| StartListening
| StopListening
| ResetTranscript
| Toast (title description : string) (variant : Variant)
| RouterPush (path : string)
| Vibrate (ms : nat)
| ConsoleError (label message : string)
| Fetch (url : string) (body : Body)
| SetTimeout (ms : nat) (callback : Callback)
| GetUserMedia
| StopTrack (track : nat)
| ResizeCanvas (percent : nat)
| DrawImage
| ToDataURL (qualityPercent : nat).

(** An event of a handler: an outside call, or a call of a state setter of
    the page ([U] is the page's type of setter calls). *)
Inductive Event (U : Type) : Type :=
| Do (e : Effect)
| Put (u : U).

Arguments Do {U} e.
Arguments Put {U} u.

(** How a request made with [fetch] ends: the promise rejects (no network, or
    a body that is not JSON), the response is not a success (with the [error]
    and [message] fields of its body, when present), or it is a success with
    its payload ([analysis] for the image endpoint, [response] for chat). *)
Inductive FetchResult : Type :=
| Rejected (reason : string)
| NotOk (error message : option string)
| Ok (payload : string).

(** How a block of statements ends: it runs to its end, it returns, it
    throws, or it is still waiting on an [await] that has not settled. *)
Inductive Completion : Type :=
| Normal
| Returned
| Thrown (message : string)
| Awaiting.

Section Commands.

Context {U : Type}.

Definition Trace : Type := list (Event U).

Definition Cmd : Type := (Trace * Completion)%type.

Definition skip : Cmd := ([], Normal).

Definition emit (e : Event U) : Cmd := ([e], Normal).

Definition ret : Cmd := ([], Returned).

Definition throw (message : string) : Cmd := ([], Thrown message).

Definition awaiting : Cmd := ([], Awaiting).

(** [c1; c2]: the second runs when the first ran to its end. *)
Definition seq (c1 c2 : Cmd) : Cmd :=
  match snd c1 with
  | Normal => (fst c1 ++ fst c2, snd c2)
  | _ => c1
  end.

(** [if (b) { c }]. *)
Definition when (b : bool) (c : Cmd) : Cmd :=
  if b then c else skip.

(** [try { body } catch (error) { handler error } finally { fin }]: the
    handler runs when the body throws, and [fin] runs once the body (and the
    handler) is over, however it ended; nothing runs while the body waits. *)
Definition try_catch_finally (body : Cmd) (handler : string -> Cmd) (fin : Cmd) : Cmd :=
  let guarded :=
    match snd body with
    | Thrown message => (fst body ++ fst (handler message), snd (handler message))
    | _ => body
    end in
  match snd guarded with
  | Awaiting => guarded
  | done =>
      match snd fin with
      | Normal => (fst guarded ++ fst fin, done)
      | abrupt => (fst guarded ++ fst fin, abrupt)
      end
  end.

(** The outside calls of a trace, by kind. *)
Definition scheduled (t : Trace) : list Callback :=
  flat_map (fun e => match e with Do (SetTimeout _ cb) => [cb] | _ => [] end) t.

Definition requests (t : Trace) : list Body :=
  flat_map (fun e => match e with Do (Fetch _ b) => [b] | _ => [] end) t.

Definition toasts (t : Trace) : list string :=
  flat_map (fun e => match e with Do (Toast title _ _) => [title] | _ => [] end) t.

Definition updates (t : Trace) : list U :=
  flat_map (fun e => match e with Put u => [u] | _ => [] end) t.

(** The event loop over the timers: [fire] runs a callback (in the render
    that created it) against the responses still to come; the callbacks it
    schedules join the queue.  [fuel] bounds the number of callbacks fired;
    what is left in the queue is returned with the trace. *)
Fixpoint event_loop (fire : Callback -> list FetchResult -> Cmd * list FetchResult)
  (fuel : nat) (queue : list Callback) (net : list FetchResult)
  : Trace * list Callback * list FetchResult :=
  match fuel, queue with
  | S fuel', cb :: rest =>
      let '(c, net') := fire cb net in
      let '(t, pending, net'') := event_loop fire fuel' (rest ++ scheduled (fst c)) net' in
      (fst c ++ t, pending, net'')
  | _, _ => ([], queue, net)
  end.

(** A handler call, then the timers it set, fired in turn ([fuel] of them at
    most). *)
Definition run (fire : Callback -> list FetchResult -> Cmd * list FetchResult)
  (fuel : nat) (call : Cmd * list FetchResult)
  : Trace * list Callback * list FetchResult :=
  let '(t, pending, net') :=
    event_loop fire fuel (scheduled (fst (fst call))) (snd call) in
  (fst (fst call) ++ t, pending, net').

End Commands.

Notation "c1 ;; c2" := (seq c1 c2) (at level 61, right associativity).

(** ** The scan page: [src/app/scan/page.tsx] *)

Module Scan.

Import Js.

(** Mock response for offline mode or when the API fails. *)
Definition MOCK_RESPONSES : list string :=
  [ "I can see what appears to be an indoor space. There are no obvious obstacles in the immediate vicinity.";
    "This looks like an outdoor area. The path ahead seems clear, but proceed with caution.";
    "I can see what might be furniture or objects in the frame. Please be careful when moving forward.";
    "The image shows what appears to be a room with some furniture. There are no immediate hazards visible.";
    "I can see what looks like a pathway. It appears to be clear of obstacles." ].

Definition maxRetries : nat := 3.

(** The state of the component: one field per [useState]. *)
Record State : Type := {
  isListening : bool;
  isProcessing : bool;
  cameraActive : bool;
  analysisResult : string;
  userQuestion : string;
  retryCount : nat
}.

Definition initial : State :=
  {| isListening := false; isProcessing := false; cameraActive := false;
     analysisResult := EmptyString; userQuestion := EmptyString; retryCount := 0 |}.

(** The calls of the state setters. *)
Inductive Update : Type :=
| SetIsListening (b : bool)
| SetIsProcessing (b : bool)
| SetCameraActive (b : bool)
| SetAnalysisResult (s : string)
| SetUserQuestion (s : string)
| SetRetryCount (n : nat).

Definition update (s : State) (u : Update) : State :=
  match u with
  | SetIsListening b =>
      {| isListening := b; isProcessing := isProcessing s; cameraActive := cameraActive s;
         analysisResult := analysisResult s; userQuestion := userQuestion s;
         retryCount := retryCount s |}
  | SetIsProcessing b =>
      {| isListening := isListening s; isProcessing := b; cameraActive := cameraActive s;
         analysisResult := analysisResult s; userQuestion := userQuestion s;
         retryCount := retryCount s |}
  | SetCameraActive b =>
      {| isListening := isListening s; isProcessing := isProcessing s; cameraActive := b;
         analysisResult := analysisResult s; userQuestion := userQuestion s;
         retryCount := retryCount s |}
  | SetAnalysisResult a =>
      {| isListening := isListening s; isProcessing := isProcessing s;
         cameraActive := cameraActive s; analysisResult := a;
         userQuestion := userQuestion s; retryCount := retryCount s |}
  | SetUserQuestion q =>
      {| isListening := isListening s; isProcessing := isProcessing s;
         cameraActive := cameraActive s; analysisResult := analysisResult s;
         userQuestion := q; retryCount := retryCount s |}
  | SetRetryCount n =>
      {| isListening := isListening s; isProcessing := isProcessing s;
         cameraActive := cameraActive s; analysisResult := analysisResult s;
         userQuestion := userQuestion s; retryCount := n |}
  end.

(** The live state once the setter calls of a trace are applied, in order. *)
Definition commit (s : State) (t : @Trace Update) : State :=
  fold_left update (updates t) s.

(** What a handler sees: the state of the render that created it, and what
    the hooks gave that render ([useAccessibility], [useSpeechRecognition],
    [useSpeechSynthesis]). *)
Record Render : Type := {
  state :> State;
  voiceFeedback : bool;
  transcript : string;
  isSpeaking : bool
}.

(** The elements behind [videoRef] and [canvasRef].  They are shared objects,
    read and written in place: [srcObject] is the stream attached to the video
    element, [frame] is the data URL the canvas encodes for the current video
    frame, [context2d] tells whether [getContext("2d")] gives a context. *)
Record Stream : Type := { tracks : list nat }.

Record Video : Type := { srcObject : option Stream }.

Record Canvas : Type := { context2d : bool; frame : string }.

Record Dom : Type := {
  videoRef : option Video;
  canvasRef : option Canvas;
  canVibrate : bool
}.

(** The calls the transcript effect makes to the handlers of the page. *)
Inductive Call : Type :=
| CallStartCamera
| CallStopCamera
| CallCaptureImage (question : Arg).

Inductive Step : Type :=
| Emit (e : Event Update)
| Invoke (c : Call).

(** The effect on [transcript] (the command interpreter). *)
Definition onTranscript (r : Render) : list Step :=
  if negb (truthy (Some (transcript r))) || negb (isListening r) then []
  else
    let command := toLowerCase (transcript r) in
    if includes command "go back" || includes command "go home" then
      [Emit (Do (Speak "Going back to home page")); Emit (Do (RouterPush "/"))]
    else if includes command "go to gpt" || includes command "go to assistant" then
      [Emit (Do (Speak "Opening voice assistant")); Emit (Do (RouterPush "/gpt"))]
    else if includes command "start camera" || includes command "open camera" then
      [Emit (Do (Speak "Starting camera")); Invoke CallStartCamera]
    else if includes command "stop camera" || includes command "close camera" then
      [Emit (Do (Speak "Stopping camera")); Invoke CallStopCamera]
    else if includes command "take picture" || includes command "snap photo"
            || includes command "analyze" then
      [Emit (Do (Speak "Taking picture for analysis")); Invoke (CallCaptureImage Undefined)]
    else if includes command "emergency" then
      [Emit (Do (Speak "Activating emergency contact"));
       Emit (Do (Toast "Emergency Contact" "Contacting your emergency contact..." Destructive))]
    else if cameraActive r then
      [Emit (Put (SetUserQuestion (transcript r)));
       Invoke (CallCaptureImage (Str (transcript r)))]
    else
      [Emit (Do (Speak (template
         ["You can say "; quoted "take picture"; ", "; quoted "start camera"; ", ";
          quoted "stop camera"; ", or "; quoted "go home"])));
       Emit (Do ResetTranscript)].

(** [startCamera]; [media] is how [getUserMedia] settles: it resolves to a
    stream, or it rejects with a reason. *)
Definition startCamera (d : Dom) (media : string + Stream) : Dom * @Cmd Update :=
  match videoRef d with
  | None => (d, ret)
  | Some _ =>
      match media with
      | inr stream =>
          ({| videoRef := Some {| srcObject := Some stream |};
              canvasRef := canvasRef d; canVibrate := canVibrate d |},
           emit (Do GetUserMedia) ;;
           emit (Put (SetCameraActive true)) ;;
           emit (Do (Toast "Camera activated"
                       "Say 'take picture' or click the camera button to analyze"
                       DefaultVariant)) ;;
           when (canVibrate d) (emit (Do (Vibrate 200))))
      | inl reason =>
          (d,
           emit (Do GetUserMedia) ;;
           emit (Do (ConsoleError "Error accessing camera:" reason)) ;;
           emit (Do (Toast "Camera Error"
                       "Could not access camera. Please check permissions." Destructive)) ;;
           emit (Do (Speak "Could not access camera. Please check permissions.")))
      end
  end.

(** [stopCamera]. *)
Definition stopCamera (d : Dom) : Dom * @Cmd Update :=
  match videoRef d with
  | None => (d, ret)
  | Some video =>
      match srcObject video with
      | None => (d, ret)
      | Some stream =>
          ({| videoRef := Some {| srcObject := None |};
              canvasRef := canvasRef d; canVibrate := canVibrate d |},
           (map (fun track => Do (StopTrack track)) (tracks stream), Normal) ;;
           emit (Put (SetCameraActive false)) ;;
           emit (Do (Toast "Camera stopped" "Camera has been turned off" DefaultVariant)))
      end
  end.

(** [getMockResponse]; [u] is the value [Math.random()] gives. *)
Definition getMockResponse (u : Random) (question : option string) : string :=
  let randomIndex := floor_times u (length MOCK_RESPONSES) in
  let response := nth randomIndex MOCK_RESPONSES "undefined" in
  match question with
  | Some (String c q) =>
      String.append response
        (template [" Regarding your question: "; quoted (String c q);
                   ", I'm currently unable to provide a specific answer as I'm operating in offline mode."])
  | _ => response
  end.

(** [processImage], run in the render [r], against the responses [net] the
    endpoint will give to the requests to come.  The result is what the call
    does until it settles (or waits forever, when no response comes), and the
    responses left. *)
Definition processImage (r : Render) (u : Random) (imageBase64 : string)
  (question : option string) (net : list FetchResult) : @Cmd Update * list FetchResult :=
  let base64Data := nth_error (split ","%char imageBase64) 1 in
  let attempt : @Cmd Update * list FetchResult :=
    match base64Data with
    | Some (String c data) =>
        let request :=
          emit (Do (Fetch "/api/analyze-image"
            (AnalyzeBody (String c data)
               (match question with
                | Some (String c' q) => String c' q
                | _ => "Describe this scene in detail for a visually impaired person. Focus on any obstacles, people, or important elements."
                end)))) in
        match net with
        | [] => (request ;; awaiting, [])
        | Rejected reason :: net' => (request ;; throw reason, net')
        | NotOk error message :: net' =>
            (request ;; throw (or_else error (or_else message "Failed to analyze image")), net')
        | Ok analysis :: net' =>
            (request ;;
             emit (Put (SetAnalysisResult analysis)) ;;
             when (voiceFeedback r) (emit (Do (Speak analysis))) ;;
             emit (Do (Toast "Analysis complete" "Image has been analyzed" DefaultVariant)),
             net')
        end
    | _ => (throw "Invalid image data", net)
    end in
  (emit (Put (SetIsProcessing true)) ;;
   try_catch_finally (fst attempt)
     (fun error =>
        emit (Do (ConsoleError "Error analyzing image:" error)) ;;
        if (retryCount r <? maxRetries)%nat then
          let nextRetryCount := retryCount r + 1 in
          emit (Put (SetRetryCount nextRetryCount)) ;;
          emit (Do (Toast (template ["Retry "; of_nat nextRetryCount; "/"; of_nat maxRetries])
                      "Retrying image analysis..." DefaultVariant)) ;;
          emit (Do (SetTimeout 1000 (RetryProcessImage imageBase64 question))) ;;
          ret
        else
          let mockResponse := getMockResponse u question in
          emit (Do (Toast "Using offline mode"
                      "Could not connect to AI service. Using basic analysis."
                      DefaultVariant)) ;;
          emit (Put (SetAnalysisResult mockResponse)) ;;
          when (voiceFeedback r) (emit (Do (Speak mockResponse))))
     (when (maxRetries <=? retryCount r)%nat
        (emit (Put (SetIsProcessing false)) ;;
         emit (Put (SetUserQuestion EmptyString)) ;;
         emit (Put (SetRetryCount 0)))),
   snd attempt).

(** [captureImage]. *)
Definition captureImage (r : Render) (d : Dom) (u : Random) (question : Arg)
  (net : list FetchResult) : @Cmd Update * list FetchResult :=
  match videoRef d, canvasRef d, cameraActive r with
  | Some video, Some canvas, true =>
      if negb (context2d canvas) then (ret, net)
      else
        let compressedImage := frame canvas in
        let questionText :=
          if arg_truthy question then Some (to_string question) else None in
        let processed := processImage r u compressedImage questionText net in
        (emit (Do (ResizeCanvas 70)) ;;
         emit (Do DrawImage) ;;
         emit (Do (ToDataURL 70)) ;;
         emit (Put (SetRetryCount 0)) ;;
         fst processed,
         snd processed)
  | _, _, _ =>
      (emit (Do (Speak "Camera is not active. Please start the camera first.")) ;;
       emit (Do (Toast "Camera not active" "Please start the camera first" Destructive)) ;;
       ret,
       net)
  end.

(** [toggleListening]. *)
Definition toggleListening (r : Render) (d : Dom) : @Cmd Update :=
  if isSpeaking r then emit (Do StopSpeaking) ;; ret
  else if isListening r then
    emit (Do StopListening) ;;
    emit (Put (SetIsListening false)) ;;
    emit (Do (Toast "Voice recognition stopped"
                "Click the microphone again to start listening" DefaultVariant))
  else
    emit (Do StartListening) ;;
    emit (Put (SetIsListening true)) ;;
    emit (Do (Speak
      (if cameraActive r
       then template ["Listening. Ask a question about what you see or say ";
                      quoted "take picture"]
       else template ["Listening. You can say "; quoted "start camera"; ", ";
                      quoted "take picture"; ", or "; quoted "go home"]))) ;;
    emit (Do (Toast "Listening..." "Say a command or ask a question" DefaultVariant)) ;;
    when (canVibrate d) (emit (Do (Vibrate 200))).

(** A timer of this page fires [processImage] of the render that set it. *)
Definition fire (r : Render) (u : Random) (cb : Callback) (net : list FetchResult)
  : @Cmd Update * list FetchResult :=
  match cb with
  | RetryProcessImage imageBase64 question => processImage r u imageBase64 question net
  | RetryHandleUserMessage _ => (skip, net)
  end.

(** What a call of the transcript effect (or of a button) does: the handler
    of the render runs against the elements and the responses to come;
    [media] is how [getUserMedia] would settle. *)
Definition invoke (r : Render) (d : Dom) (media : string + Stream) (u : Random)
  (c : Call) (net : list FetchResult) : Dom * @Cmd Update * list FetchResult :=
  match c with
  | CallStartCamera => (fst (startCamera d media), snd (startCamera d media), net)
  | CallStopCamera => (fst (stopCamera d), snd (stopCamera d), net)
  | CallCaptureImage question =>
      (d, fst (captureImage r d u question net), snd (captureImage r d u question net))
  end.


(** The [onClick] of the back button of the header. *)
Definition goBack (d : Dom) : Dom * @Trace Update :=
  (fst (stopCamera d),
   [Do (Speak "Going back to home page")]
   ++ fst (snd (stopCamera d))
   ++ [Do (RouterPush "/")]).

(** The camera button: [onClick={cameraActive ? captureImage : startCamera}],
    so the handler receives the click event; [disabled={isProcessing}]. *)
Definition onCameraButton (r : Render) (d : Dom) (media : string + Stream) (u : Random)
  (net : list FetchResult) : Dom * @Cmd Update * list FetchResult :=
  if isProcessing r then (d, skip, net)
  else if cameraActive r then invoke r d media u (CallCaptureImage ClickEvent) net
  else invoke r d media u CallStartCamera net.

End Scan.

(** ** The chat page: the component [GPTPage] *)

Module Gpt.

Import Js.

Definition maxRetries : nat := 3.

Record State : Type := {
  isListening : bool;
  isProcessing : bool;
  messages : list Message;
  retryCount : nat
}.

Definition initial : State :=
  {| isListening := false; isProcessing := false;
     messages := [ {| role := Assistant; content := "Hello! How can I help you today?" |} ];
     retryCount := 0 |}.

(** The calls of the state setters; [AppendMessage m] is
    [setMessages((prev) => [...prev, m])]. *)
Inductive Update : Type :=
| SetIsListening (b : bool)
| SetIsProcessing (b : bool)
| AppendMessage (m : Message)
| SetRetryCount (n : nat).

Definition update (s : State) (u : Update) : State :=
  match u with
  | SetIsListening b =>
      {| isListening := b; isProcessing := isProcessing s; messages := messages s;
         retryCount := retryCount s |}
  | SetIsProcessing b =>
      {| isListening := isListening s; isProcessing := b; messages := messages s;
         retryCount := retryCount s |}
  | AppendMessage m =>
      {| isListening := isListening s; isProcessing := isProcessing s;
         messages := messages s ++ [m]; retryCount := retryCount s |}
  | SetRetryCount n =>
      {| isListening := isListening s; isProcessing := isProcessing s;
         messages := messages s; retryCount := n |}
  end.

Definition commit (s : State) (t : @Trace Update) : State :=
  fold_left update (updates t) s.

Record Render : Type := {
  state :> State;
  voiceFeedback : bool;
  transcript : string;
  isSpeaking : bool
}.

(** The message the chat shows when a request fails for good. *)
Definition apology : Message :=
  {| role := Assistant;
     content := "I'm sorry, I encountered an error processing your request. Please try again." |}.

(** [handleUserMessage], run in the render [r]. *)
Definition handleUserMessage (r : Render) (message : string) (net : list FetchResult)
  : @Cmd Update * list FetchResult :=
  let userMessage := {| role := User; content := message |} in
  let attempt : @Cmd Update * list FetchResult :=
    let request := emit (Do (Fetch "/api/chat" (ChatBody (messages r ++ [userMessage])))) in
    match net with
    | [] => (request ;; awaiting, [])
    | Rejected reason :: net' => (request ;; throw reason, net')
    | NotOk _ _ :: net' => (request ;; throw "Failed to get response from API", net')
    | Ok aiResponse :: net' =>
        (request ;;
         emit (Put (AppendMessage {| role := Assistant; content := aiResponse |})) ;;
         when (voiceFeedback r) (emit (Do (Speak aiResponse))) ;;
         emit (Do (Toast "Response received" "The AI has responded to your question"
                     DefaultVariant)),
         net')
    end in
  (emit (Put (AppendMessage userMessage)) ;;
   emit (Do StopListening) ;;
   emit (Put (SetIsListening false)) ;;
   emit (Put (SetIsProcessing true)) ;;
   emit (Put (SetRetryCount 0)) ;;
   try_catch_finally (fst attempt)
     (fun error =>
        emit (Do (ConsoleError "Error:" error)) ;;
        if (retryCount r <? maxRetries)%nat then
          let nextRetryCount := retryCount r + 1 in
          emit (Put (SetRetryCount nextRetryCount)) ;;
          emit (Do (Toast (template ["Retry "; of_nat nextRetryCount; "/"; of_nat maxRetries])
                      "Retrying to get a response..." DefaultVariant)) ;;
          emit (Do (SetTimeout 1000 (RetryHandleUserMessage message))) ;;
          ret
        else
          emit (Do (Toast "Error" "Failed to get a response. Please try again."
                      Destructive)) ;;
          emit (Put (AppendMessage apology)))
     (when (maxRetries <=? retryCount r)%nat
        (emit (Put (SetIsProcessing false)) ;;
         emit (Put (SetRetryCount 0)))),
   snd attempt).

(** The calls the transcript effect makes to the handlers of the page. *)
Inductive Step : Type :=
| Emit (e : Event Update)
| InvokeHandleUserMessage (message : string).

(** The effect on [transcript]. *)
Definition onTranscript (r : Render) : list Step :=
  if negb (truthy (Some (transcript r))) || negb (isListening r) then []
  else
    let command := toLowerCase (transcript r) in
    if includes command "go back" || includes command "go home" then
      [Emit (Do (Speak "Going back to home page")); Emit (Do (RouterPush "/"))]
    else if includes command "go to scan" || includes command "video analyzer" then
      [Emit (Do (Speak "Opening video analyzer")); Emit (Do (RouterPush "/scan"))]
    else if includes command "emergency" then
      [Emit (Do (Speak "Activating emergency contact"));
       Emit (Do (Toast "Emergency Contact" "Contacting your emergency contact..." Destructive))]
    else
      [InvokeHandleUserMessage (transcript r); Emit (Do ResetTranscript)].

(** [toggleListening]; [canVibrate] tells whether [navigator.vibrate] exists. *)
Definition toggleListening (r : Render) (canVibrate : bool) : @Cmd Update :=
  if isSpeaking r then emit (Do StopSpeaking) ;; ret
  else if isListening r then
    emit (Do StopListening) ;;
    emit (Put (SetIsListening false)) ;;
    emit (Do (Toast "Voice recognition stopped"
                "Click the microphone again to start listening" DefaultVariant))
  else
    emit (Do StartListening) ;;
    emit (Put (SetIsListening true)) ;;
    emit (Do (Speak "Listening. What would you like to know?")) ;;
    emit (Do (Toast "Listening..." "Speak your question now" DefaultVariant)) ;;
    when canVibrate (emit (Do (Vibrate 200))).

(** A timer of this page fires [handleUserMessage] of the render that set it. *)
Definition fire (r : Render) (cb : Callback) (net : list FetchResult)
  : @Cmd Update * list FetchResult :=
  match cb with
  | RetryHandleUserMessage message => handleUserMessage r message net
  | RetryProcessImage _ _ => (skip, net)
  end.

End Gpt.

(** ** Vocabulary of the properties, and the inputs they are tried on *)

(** ** The speech recognition hook: [useSpeechRecognition] *)

Module Recognition.

(** The recognition object the hook creates, with the settings it gives it. *)
Record Instance : Type := {
  continuous : bool;
  interimResults : bool;
  lang : string
}.

Record State : Type := {
  transcript : string;
  isListening : bool;
  error : option string;
  recognition : option Instance
}.

Definition initial : State :=
  {| transcript := EmptyString; isListening := false; error := None; recognition := None |}.

Inductive Update : Type :=
| SetTranscript (s : string)
| SetIsListening (b : bool)
| SetError (e : option string)
| SetRecognition (i : Instance).

Definition update (s : State) (u : Update) : State :=
  match u with
  | SetTranscript t =>
      {| transcript := t; isListening := isListening s; error := error s;
         recognition := recognition s |}
  | SetIsListening b =>
      {| transcript := transcript s; isListening := b; error := error s;
         recognition := recognition s |}
  | SetError e =>
      {| transcript := transcript s; isListening := isListening s; error := e;
         recognition := recognition s |}
  | SetRecognition i =>
      {| transcript := transcript s; isListening := isListening s; error := error s;
         recognition := Some i |}
  end.

(** What the hook does: calls of the recognition object, the console, and
    its state setters. *)
Inductive Action : Type :=
| EngineStart
| EngineStop
| Console (label message : string)
| Store (u : Update).

Definition stores (t : list Action) : list Update :=
  flat_map (fun a => match a with Store u => [u] | _ => [] end) t.

Definition commit (s : State) (t : list Action) : State :=
  fold_left update (stores t) s.

(** Where the hook runs: on the server ([window] is undefined), or in a
    browser that has, or has not, a [SpeechRecognition] constructor. *)
Inductive Host : Type :=
| Server
| BrowserWithoutRecognition
| BrowserWithRecognition.

(** The effect that initialises the hook. *)
Definition initialize (h : Host) : list Action :=
  match h with
  | Server => []
  | BrowserWithRecognition =>
      [Store (SetRecognition
                {| continuous := true; interimResults := true; lang := "en-US" |})]
  | BrowserWithoutRecognition =>
      [Store (SetError (Some "Speech recognition not supported in this browser"))]
  end.

(** [onresult]: [results] holds, for each result, the transcripts of its
    alternatives.  Reading a result that is not there throws, and nothing is
    stored. *)
Definition onresult (results : list (list string)) (resultIndex : nat) : list Action :=
  match nth_error results resultIndex with
  | Some (first :: _) => [Store (SetTranscript first)]
  | _ => []
  end.

Definition onerror (code : string) : list Action :=
  [Store (SetError (Some code)); Store (SetIsListening false)].

Definition onend : list Action :=
  [Store (SetIsListening false)].

(** [startListening]; [thrown] is what [recognition.start()] throws, if it
    does. *)
Definition startListening (s : State) (thrown : option string) : list Action :=
  match recognition s with
  | Some _ =>
      match thrown with
      | None => [EngineStart; Store (SetIsListening true); Store (SetError None)]
      | Some err =>
          [EngineStart; Console "Error starting speech recognition:" err;
           Store (SetError (Some "Error starting speech recognition"))]
      end
  | None => [Store (SetError (Some "Speech recognition not initialized"))]
  end.

Definition stopListening (s : State) : list Action :=
  match recognition s with
  | Some _ => [EngineStop; Store (SetIsListening false)]
  | None => []
  end.

Definition resetTranscript : list Action :=
  [Store (SetTranscript EmptyString)].

(** What can happen to the hook once it is initialised: a call of one of the
    functions it returns, or an event of the recognition object. *)
Inductive Op : Type :=
| CallStart (thrown : option string)
| CallStop
| CallReset
| Result (results : list (list string)) (resultIndex : nat)
| Error (code : string)
| Ended.

Definition step (s : State) (o : Op) : State :=
  commit s
    match o with
    | CallStart thrown => startListening s thrown
    | CallStop => stopListening s
    | CallReset => resetTranscript
    | Result results resultIndex => onresult results resultIndex
    | Error code => onerror code
    | Ended => onend
    end.

Definition steps (s : State) (ops : list Op) : State :=
  fold_left step ops s.

End Recognition.

Coercion Scan.state : Scan.Render >-> Scan.State.
Coercion Gpt.state : Gpt.Render >-> Gpt.State.

(** The fixed sentence [getMockResponse] adds after the canned one when a
    question was asked. *)
Definition disclaimer (question : string) : string :=
  String.append " Regarding your question: "
    (String.append (Js.quoted question)
       ", I'm currently unable to provide a specific answer as I'm operating in offline mode.").

(** The camera has no stream attached: the guard of [stopCamera] returns. *)
Definition no_stream (d : Scan.Dom) : bool :=
  match Scan.videoRef d with
  | Some video =>
      match Scan.srcObject video with
      | Some _ => false
      | None => true
      end
  | None => true
  end.

(** A request that does not succeed. *)
Definition failure (f : FetchResult) : bool :=
  match f with
  | Ok _ => false
  | _ => true
  end.

(** The image payload carries data after the comma of its prefix. *)
Definition has_payload (imageBase64 : string) : bool :=
  Js.truthy (nth_error (Js.split ","%char imageBase64) 1).

Definition is_analysis (u : Scan.Update) : bool :=
  match u with
  | Scan.SetAnalysisResult _ => true
  | _ => false
  end.

(** The title of the toast that announces a retry. *)
Definition retry_title (n : nat) : string :=
  Js.template ["Retry "; Js.of_nat n; "/"; Js.of_nat 3].

(** The messages a trace of the chat page appends to the log. *)
Definition appended (t : @Trace Gpt.Update) : list Message :=
  flat_map (fun u => match u with Gpt.AppendMessage m => [m] | _ => [] end) (updates t).

(** The prompt [processImage] sends: the question when there is one, the
    request for a description otherwise. *)
Definition prompt_of (question : option string) : string :=
  if Js.truthy question then Js.or_else question EmptyString
  else "Describe this scene in detail for a visually impaired person. Focus on any obstacles, people, or important elements.".




Definition is_speak (U : Type) (e : Event U) : bool :=
  match e with
  | Do (Speak _) => true
  | _ => false
  end.

(** The tracks stopped by a trace, in order. *)
Definition stopped (t : @Trace Scan.Update) : list nat :=
  flat_map (fun e => match e with Do (StopTrack track) => [track] | _ => [] end) t.

(** The elements are ready for a capture: a video element, a canvas with a
    2d context. *)
Definition ready (d : Scan.Dom) : option string :=
  match Scan.videoRef d, Scan.canvasRef d with
  | Some _, Some canvas =>
      if Scan.context2d canvas then Some (Scan.frame canvas) else None
  | _, _ => None
  end.

Definition recognition_ready : Recognition.State :=
  Recognition.commit Recognition.initial
    (Recognition.initialize Recognition.BrowserWithRecognition).

Definition half : Js.Random :=
  {| Js.num := 1; Js.den := 2; Js.in_range := eq_refl |}.

Definition jpeg : string := "data:image/jpeg;base64,AAAA".

Definition scan_state (listening camera : bool) (retries : nat) : Scan.State :=
  {| Scan.isListening := listening; Scan.isProcessing := false;
     Scan.cameraActive := camera; Scan.analysisResult := EmptyString;
     Scan.userQuestion := EmptyString; Scan.retryCount := retries |}.

Definition scan_render (s : Scan.State) (speaking : bool) (heard : string) : Scan.Render :=
  {| Scan.state := s; Scan.voiceFeedback := true; Scan.transcript := heard;
     Scan.isSpeaking := speaking |}.

Definition dom_streaming : Scan.Dom :=
  {| Scan.videoRef := Some {| Scan.srcObject := Some {| Scan.tracks := [0; 1] |} |};
     Scan.canvasRef := Some {| Scan.context2d := true; Scan.frame := jpeg |};
     Scan.canVibrate := true |}.

Definition dom_idle : Scan.Dom :=
  {| Scan.videoRef := Some {| Scan.srcObject := None |};
     Scan.canvasRef := Some {| Scan.context2d := true; Scan.frame := jpeg |};
     Scan.canVibrate := true |}.

Definition gpt_render (retries : nat) (speaking : bool) (heard : string) : Gpt.Render :=
  {| Gpt.state :=
       {| Gpt.isListening := true; Gpt.isProcessing := false;
          Gpt.messages := Gpt.messages Gpt.initial; Gpt.retryCount := retries |};
     Gpt.voiceFeedback := true; Gpt.transcript := heard; Gpt.isSpeaking := speaking |}.

Definition four_failures : list FetchResult := repeat (NotOk None None) 4.

(** ** Strings *)

Lemma prefix_append (q rest : string) : String.prefix q (String.append q rest) = true.
Proof.
  induction q as [|c q IH]; simpl.
  - destruct rest; reflexivity.
  - destruct (ascii_dec c c) as [_|Hne]; [exact IH | now elim Hne].
Qed.

Lemma append_assoc (a b c : string) :
  String.append (String.append a b) c = String.append a (String.append b c).
Proof. induction a as [|x a IH]; simpl; [reflexivity | now rewrite IH]. Qed.

Lemma includes_prefix (s q : string) :
  String.prefix q s = true -> Js.includes s q = true.
Proof.
  intros H. destruct s; unfold Js.includes; fold Js.includes; rewrite H; reflexivity.
Qed.

Lemma includes_append (before q rest : string) :
  Js.includes (String.append before (String.append q rest)) q = true.
Proof.
  induction before as [|c before IH].
  - change (String.append EmptyString (String.append q rest))
      with (String.append q rest).
    apply includes_prefix, prefix_append.
  - change (String.append (String c before) (String.append q rest))
      with (String c (String.append before (String.append q rest))).
    unfold Js.includes; fold Js.includes. rewrite IH. apply orb_true_r.
Qed.

Lemma floor_times_lt (u : Js.Random) (n : nat) : 0 < n -> Js.floor_times u n < n.
Proof.
  intros Hn. unfold Js.floor_times.
  pose proof (Js.in_range u) as Hu. apply Nat.ltb_lt in Hu.
  apply Nat.Div0.div_lt_upper_bound. nia.
Qed.

(** ** The fallback sentences *)

Lemma mock_index (u : Js.Random) :
  Js.floor_times u (length Scan.MOCK_RESPONSES) < 5.
Proof. apply (floor_times_lt u 5). lia. Qed.

Lemma mock_nth_in (i : nat) :
  i < 5 -> In (nth i Scan.MOCK_RESPONSES "undefined") Scan.MOCK_RESPONSES.
Proof. intros Hi. apply nth_In. exact Hi. Qed.

(** C5.  Whichever of the five canned sentences the draw selects (the one of
    index [i]) and whatever the non-empty question, [getMockResponse] returns
    that sentence followed by the fixed disclaimer, and the disclaimer
    contains the question as it was given. *)
Theorem getMockResponse_question (i : nat) (u : Js.Random) (question : string) :
  i < 5 ->
  Js.floor_times u (length Scan.MOCK_RESPONSES) = i ->
  question <> EmptyString ->
  Scan.getMockResponse u (Some question)
    = String.append (nth i Scan.MOCK_RESPONSES EmptyString) (disclaimer question)
  /\ In (nth i Scan.MOCK_RESPONSES EmptyString) Scan.MOCK_RESPONSES
  /\ Js.includes (disclaimer question) question = true.
Proof.
  intros Hi Hu Hq. split; [|split].
  - unfold Scan.getMockResponse. rewrite Hu.
    destruct question as [|c q]; [now elim Hq|].
    rewrite (nth_indep _ "undefined" EmptyString) by exact Hi.
    reflexivity.
  - apply nth_In. exact Hi.
  - unfold disclaimer, Js.quoted.
    set (tail := ", I'm currently unable to provide a specific answer as I'm operating in offline mode.").
    replace (String.append " Regarding your question: "
               (String.append
                  (String Js.dquote (String.append question (String Js.dquote EmptyString)))
                  tail))
      with (String.append (String.append " Regarding your question: " (String Js.dquote EmptyString))
              (String.append question (String.append (String Js.dquote EmptyString) tail))).
    + apply includes_append.
    + rewrite !append_assoc. simpl. rewrite append_assoc. reflexivity.
Qed.

Lemma getMockResponse_question_witness :
  Scan.getMockResponse half (Some "what is this")
    = String.append (nth 2 Scan.MOCK_RESPONSES EmptyString) (disclaimer "what is this")
  /\ In (nth 2 Scan.MOCK_RESPONSES EmptyString) Scan.MOCK_RESPONSES
  /\ Js.includes (disclaimer "what is this") "what is this" = true.
Proof.
  apply (getMockResponse_question 2 half "what is this").
  - lia.
  - reflexivity.
  - discriminate.
Defined.

(** C9.  With no question supplied, [getMockResponse] returns one of the five
    canned sentences as it stands: the one the draw selects, and nothing
    after it. *)
Theorem getMockResponse_no_question (u : Js.Random) :
  Scan.getMockResponse u None
    = nth (Js.floor_times u (length Scan.MOCK_RESPONSES)) Scan.MOCK_RESPONSES "undefined"
  /\ In (Scan.getMockResponse u None) Scan.MOCK_RESPONSES
  /\ length Scan.MOCK_RESPONSES = 5.
Proof.
  split; [reflexivity|split; [|reflexivity]].
  unfold Scan.getMockResponse. apply mock_nth_in, mock_index.
Qed.

(** ** The camera *)

(** C6.  [captureImage] in a render where the camera is not active speaks and
    shows the error and returns: no frame is drawn or encoded, no request is
    made, and no state setter is called, so the retry counter is as it was. *)
Theorem captureImage_inactive (r : Scan.Render) (d : Scan.Dom) (u : Js.Random)
  (question : Js.Arg) (net : list FetchResult) :
  Scan.cameraActive r = false ->
  let call := Scan.captureImage r d u question net in
  fst call
    = ([Do (Speak "Camera is not active. Please start the camera first.");
        Do (Toast "Camera not active" "Please start the camera first" Destructive)],
       Returned)
  /\ snd call = net
  /\ ~ In (Do DrawImage) (fst (fst call))
  /\ (forall quality, ~ In (Do (ToDataURL quality)) (fst (fst call)))
  /\ ~ In (Put (Scan.SetRetryCount 0)) (fst (fst call))
  /\ forall s, Scan.retryCount (Scan.commit s (fst (fst call))) = Scan.retryCount s.
Proof.
  intros Hoff call.
  assert (Hcall : call
    = ([Do (Speak "Camera is not active. Please start the camera first.");
        Do (Toast "Camera not active" "Please start the camera first" Destructive)],
       Returned, net)).
  { subst call. unfold Scan.captureImage. rewrite Hoff.
    destruct (Scan.videoRef d), (Scan.canvasRef d); reflexivity. }
  rewrite Hcall. cbn [fst snd].
  repeat split.
  - intros [H|[H|[]]]; discriminate.
  - intros quality [H|[H|[]]]; discriminate.
  - intros [H|[H|[]]]; discriminate.
Qed.

Lemma captureImage_inactive_witness :
  let call := Scan.captureImage (scan_render (scan_state true false 2) false "analyze")
                dom_idle half Js.Undefined four_failures in
  fst call
    = ([Do (Speak "Camera is not active. Please start the camera first.");
        Do (Toast "Camera not active" "Please start the camera first" Destructive)],
       Returned)
  /\ snd call = four_failures
  /\ ~ In (Do DrawImage) (fst (fst call))
  /\ (forall quality, ~ In (Do (ToDataURL quality)) (fst (fst call)))
  /\ ~ In (Put (Scan.SetRetryCount 0)) (fst (fst call))
  /\ forall s, Scan.retryCount (Scan.commit s (fst (fst call))) = Scan.retryCount s.
Proof.
  apply (captureImage_inactive (scan_render (scan_state true false 2) false "analyze")
           dom_idle half Js.Undefined four_failures).
  reflexivity.
Defined.

Lemma stopCamera_detaches (d : Scan.Dom) : no_stream (fst (Scan.stopCamera d)) = true.
Proof.
  unfold Scan.stopCamera, no_stream.
  destruct (Scan.videoRef d) as [video|] eqn:Hv; cbn [fst]; [|now rewrite Hv].
  destruct (Scan.srcObject video) eqn:Hs; cbn [fst]; [reflexivity|].
  now rewrite Hv, Hs.
Qed.

Lemma stopCamera_no_stream (d : Scan.Dom) :
  no_stream d = true -> Scan.stopCamera d = (d, ([], Returned)).
Proof.
  unfold Scan.stopCamera, no_stream.
  destruct (Scan.videoRef d) as [video|]; [|reflexivity].
  destruct (Scan.srcObject video); [discriminate | reflexivity].
Qed.

(** C8.  [stopCamera] with no stream attached does nothing: it returns with
    an empty trace (no toast, no setter call, nothing thrown) and leaves the
    elements and the state as they were; and whatever the camera was doing, a
    second [stopCamera] right after a first one is such a call. *)
Theorem stopCamera_idempotent (d : Scan.Dom) :
  no_stream d = true ->
  Scan.stopCamera d = (d, ([], Returned))
  /\ (forall s, Scan.commit s (fst (snd (Scan.stopCamera d))) = s)
  /\ forall d', Scan.stopCamera (fst (Scan.stopCamera d'))
                = (fst (Scan.stopCamera d'), ([], Returned)).
Proof.
  intros Hd. rewrite (stopCamera_no_stream d Hd). repeat split.
  intros d'. apply stopCamera_no_stream, stopCamera_detaches.
Qed.

Lemma stopCamera_idempotent_witness :
  Scan.stopCamera dom_idle = (dom_idle, ([], Returned))
  /\ (forall s, Scan.commit s (fst (snd (Scan.stopCamera dom_idle))) = s)
  /\ forall d', Scan.stopCamera (fst (Scan.stopCamera d'))
                = (fst (Scan.stopCamera d'), ([], Returned)).
Proof.
  apply (stopCamera_idempotent dom_idle). reflexivity.
Defined.

(** A first [stopCamera] on a camera that streams does stop the tracks and
    tells the user. *)
Example stopCamera_streaming :
  Scan.stopCamera dom_streaming
  = (dom_idle,
     ([Do (StopTrack 0); Do (StopTrack 1); Put (Scan.SetCameraActive false);
       Do (Toast "Camera stopped" "Camera has been turned off" DefaultVariant)],
      Normal)).
Proof. reflexivity. Qed.

(** ** The microphone button *)

(** C10.  On both pages, [toggleListening] in a render where speech is being
    spoken only calls [stopSpeaking] and returns: the trace holds nothing
    else, so no toast is shown, the recognition is neither started nor
    stopped, and the state of the page is as it was. *)
Theorem toggleListening_speaking (rs : Scan.Render) (d : Scan.Dom)
  (rg : Gpt.Render) (canVibrate : bool) :
  Scan.isSpeaking rs = true ->
  Gpt.isSpeaking rg = true ->
  (Scan.toggleListening rs d = ([Do StopSpeaking], Returned)
   /\ toasts (fst (Scan.toggleListening rs d)) = []
   /\ forall s, Scan.commit s (fst (Scan.toggleListening rs d)) = s)
  /\ (Gpt.toggleListening rg canVibrate = ([Do StopSpeaking], Returned)
      /\ toasts (fst (Gpt.toggleListening rg canVibrate)) = []
      /\ forall s, Gpt.commit s (fst (Gpt.toggleListening rg canVibrate)) = s).
Proof.
  intros Hs Hg. unfold Scan.toggleListening, Gpt.toggleListening.
  rewrite Hs, Hg. repeat split.
Qed.

Lemma toggleListening_speaking_witness :
  let rs := scan_render (scan_state true true 0) true "hello" in
  let rg := gpt_render 0 true "hello" in
  (Scan.toggleListening rs dom_streaming = ([Do StopSpeaking], Returned)
   /\ toasts (fst (Scan.toggleListening rs dom_streaming)) = []
   /\ forall s, Scan.commit s (fst (Scan.toggleListening rs dom_streaming)) = s)
  /\ (Gpt.toggleListening rg true = ([Do StopSpeaking], Returned)
      /\ toasts (fst (Gpt.toggleListening rg true)) = []
      /\ forall s, Gpt.commit s (fst (Gpt.toggleListening rg true)) = s).
Proof.
  apply (toggleListening_speaking (scan_render (scan_state true true 0) true "hello")
           dom_streaming (gpt_render 0 true "hello") true); reflexivity.
Defined.

(** ** The command interpreter of the scan page *)

(** C3, as the code has it.  While listening with the camera active, the
    transcript [take a picture please] holds none of the keywords of the
    interpreter ([take picture] is not a part of it), so it goes down the
    free-form-question path: the transcript is stored as the question and
    [captureImage] is called with it.  The transcript [take picture please]
    is the one that is matched as a capture: the confirmation is spoken and
    [captureImage] is called without a question. *)
Theorem onTranscript_take_picture (r : Scan.Render) :
  Scan.isListening r = true ->
  Scan.cameraActive r = true ->
  (Scan.transcript r = "take a picture please" ->
   Scan.onTranscript r
   = [Scan.Emit (Put (Scan.SetUserQuestion "take a picture please"));
      Scan.Invoke (Scan.CallCaptureImage (Js.Str "take a picture please"))])
  /\ (Scan.transcript r = "take picture please" ->
      Scan.onTranscript r
      = [Scan.Emit (Do (Speak "Taking picture for analysis"));
         Scan.Invoke (Scan.CallCaptureImage Js.Undefined)]).
Proof.
  intros Hl Hc. split; intros Ht; unfold Scan.onTranscript; rewrite Ht, Hl;
    [rewrite Hc|]; reflexivity.
Qed.

Lemma onTranscript_take_picture_witness :
  Scan.onTranscript (scan_render (scan_state true true 0) false "take a picture please")
  = [Scan.Emit (Put (Scan.SetUserQuestion "take a picture please"));
     Scan.Invoke (Scan.CallCaptureImage (Js.Str "take a picture please"))].
Proof.
  apply (proj1 (onTranscript_take_picture
                  (scan_render (scan_state true true 0) false "take a picture please")
                  eq_refl eq_refl)).
  reflexivity.
Defined.

(** C3 as stated fails: with the camera active, [take a picture please] is
    not mapped to the plain capture. *)
Lemma onTranscript_take_a_picture_is_a_question :
  Scan.onTranscript (scan_render (scan_state true true 0) false "take a picture please")
  <> [Scan.Emit (Do (Speak "Taking picture for analysis"));
      Scan.Invoke (Scan.CallCaptureImage Js.Undefined)].
Proof. vm_compute. discriminate. Qed.

(** ** The image request *)

(** What [processImage] does when the payload is missing: no request; the
    error goes to the handler of the request failures. *)
Lemma processImage_no_payload_trace (r : Scan.Render) (u : Js.Random)
  (imageBase64 : string) (question : option string) (net : list FetchResult) :
  has_payload imageBase64 = false ->
  Scan.processImage r u imageBase64 question net
  = (if (Scan.retryCount r <? Scan.maxRetries)%nat then
       ([Put (Scan.SetIsProcessing true);
         Do (ConsoleError "Error analyzing image:" "Invalid image data");
         Put (Scan.SetRetryCount (Scan.retryCount r + 1));
         Do (Toast (Js.template ["Retry "; Js.of_nat (Scan.retryCount r + 1); "/";
                                 Js.of_nat Scan.maxRetries])
               "Retrying image analysis..." DefaultVariant);
         Do (SetTimeout 1000 (RetryProcessImage imageBase64 question))],
        Returned)
     else
       ([Put (Scan.SetIsProcessing true);
         Do (ConsoleError "Error analyzing image:" "Invalid image data");
         Do (Toast "Using offline mode"
               "Could not connect to AI service. Using basic analysis." DefaultVariant);
         Put (Scan.SetAnalysisResult (Scan.getMockResponse u question))]
        ++ (if Scan.voiceFeedback r
            then [Do (Speak (Scan.getMockResponse u question))] else [])
        ++ [Put (Scan.SetIsProcessing false); Put (Scan.SetUserQuestion EmptyString);
            Put (Scan.SetRetryCount 0)],
        Normal),
     net).
Proof.
  unfold has_payload, Scan.processImage. intros Hp.
  destruct (nth_error (Js.split ","%char imageBase64) 1) as [[|c data]|];
    try discriminate Hp.
  - destruct (Nat.ltb_spec (Scan.retryCount r) Scan.maxRetries) as [Hlt|Hge].
    + apply Nat.lt_nge in Hlt. apply Nat.leb_nle in Hlt. rewrite Hlt. reflexivity.
    + apply Nat.leb_le in Hge. rewrite Hge. destruct (Scan.voiceFeedback r); reflexivity.
  - destruct (Nat.ltb_spec (Scan.retryCount r) Scan.maxRetries) as [Hlt|Hge].
    + apply Nat.lt_nge in Hlt. apply Nat.leb_nle in Hlt. rewrite Hlt. reflexivity.
    + apply Nat.leb_le in Hge. rewrite Hge. destruct (Scan.voiceFeedback r); reflexivity.
Qed.

(** C2, as the code has it.  A call of [processImage] whose payload has no
    data after the comma makes no request and consumes no response; the error
    [Invalid image data] is thrown inside the [try] and handled like a failed
    request: it is logged, then, in a render whose retry counter is below the
    maximum, a retry is announced and scheduled, and otherwise the synthetic
    result is stored. *)
Theorem processImage_no_payload (r : Scan.Render) (u : Js.Random)
  (imageBase64 : string) (question : option string) (net : list FetchResult) :
  has_payload imageBase64 = false ->
  let call := Scan.processImage r u imageBase64 question net in
  let t := fst (fst call) in
  requests t = []
  /\ snd call = net
  /\ In (Do (ConsoleError "Error analyzing image:" "Invalid image data")) t
  /\ (Scan.retryCount r < Scan.maxRetries ->
      scheduled t = [RetryProcessImage imageBase64 question]
      /\ toasts t = [Js.template ["Retry "; Js.of_nat (Scan.retryCount r + 1); "/";
                                  Js.of_nat Scan.maxRetries]]
      /\ filter is_analysis (updates t) = [])
  /\ (Scan.maxRetries <= Scan.retryCount r ->
      scheduled t = []
      /\ toasts t = ["Using offline mode"]
      /\ filter is_analysis (updates t)
         = [Scan.SetAnalysisResult (Scan.getMockResponse u question)]).
Proof.
  intros Hp call t. subst t call.
  rewrite (processImage_no_payload_trace r u imageBase64 question net Hp).
  destruct (Nat.ltb_spec (Scan.retryCount r) Scan.maxRetries) as [Hlt|Hge];
    cbn [fst snd].
  - split; [reflexivity|]. split; [reflexivity|]. split; [right; left; reflexivity|].
    split; intros H; [repeat split | lia].
  - split; [destruct (Scan.voiceFeedback r); reflexivity|].
    split; [reflexivity|]. split; [right; left; reflexivity|].
    split; intros H; [lia | destruct (Scan.voiceFeedback r); repeat split].
Qed.

Lemma processImage_no_payload_witness :
  let call := Scan.processImage (scan_render (scan_state false true 0) false EmptyString)
                half "no comma here" (Some "what is this") four_failures in
  let t := fst (fst call) in
  requests t = []
  /\ snd call = four_failures
  /\ In (Do (ConsoleError "Error analyzing image:" "Invalid image data")) t
  /\ (0 < Scan.maxRetries ->
      scheduled t = [RetryProcessImage "no comma here" (Some "what is this")]
      /\ toasts t = [Js.template ["Retry "; Js.of_nat 1; "/"; Js.of_nat Scan.maxRetries]]
      /\ filter is_analysis (updates t) = [])
  /\ (Scan.maxRetries <= 0 ->
      scheduled t = []
      /\ toasts t = ["Using offline mode"]
      /\ filter is_analysis (updates t)
         = [Scan.SetAnalysisResult (Scan.getMockResponse half (Some "what is this"))]).
Proof.
  apply (processImage_no_payload (scan_render (scan_state false true 0) false EmptyString)
           half "no comma here" (Some "what is this") four_failures).
  reflexivity.
Defined.

(** C2 as stated fails: in the first render of a capture, the call with a
    payload without data does enter the retry path (a timer is set). *)
Lemma processImage_no_payload_retries :
  let t := fst (fst (Scan.processImage
                       (scan_render (scan_state false true 0) false EmptyString)
                       half "no comma here" None [])) in
  ~ (requests t = [] /\ scheduled t = [] /\ filter is_analysis (updates t) = []).
Proof. intros t [_ [Hs _]]. vm_compute in Hs. discriminate Hs. Qed.

(** ** The processing flag *)

Lemma processImage_flag (r : Scan.Render) (u : Js.Random) (imageBase64 : string)
  (question : option string) (net : list FetchResult) :
  snd (fst (Scan.processImage r u imageBase64 question net)) <> Awaiting ->
  let t := fst (fst (Scan.processImage r u imageBase64 question net)) in
  (In (Put (Scan.SetIsProcessing false)) t <-> Scan.maxRetries <= Scan.retryCount r)
  /\ (Scan.retryCount r < Scan.maxRetries ->
      forall s, Scan.isProcessing (Scan.commit s t) = true).
Proof.
  unfold Scan.processImage.
  destruct (Nat.ltb_spec (Scan.retryCount r) Scan.maxRetries) as [Hlt|Hge];
    destruct (Nat.leb_spec Scan.maxRetries (Scan.retryCount r)) as [Hle|Hgt];
    try lia;
    destruct (nth_error (Js.split ","%char imageBase64) 1) as [[|c data]|];
    try destruct net as [|[reason|error message|analysis] net'];
    destruct (Scan.voiceFeedback r);
    intros Hsettled; cbn in Hsettled |- *;
    (split; [split; [intros Hin | intros Hmax] | intros Hlow s]);
    try reflexivity; try lia; try (now elim Hsettled);
    try (repeat (destruct Hin as [Hin|Hin]; try discriminate Hin); now elim Hin);
    auto 12.
Qed.

Lemma handleUserMessage_flag (r : Gpt.Render) (message : string)
  (net : list FetchResult) :
  snd (fst (Gpt.handleUserMessage r message net)) <> Awaiting ->
  let t := fst (fst (Gpt.handleUserMessage r message net)) in
  (In (Put (Gpt.SetIsProcessing false)) t <-> Gpt.maxRetries <= Gpt.retryCount r)
  /\ (Gpt.retryCount r < Gpt.maxRetries ->
      forall s, Gpt.isProcessing (Gpt.commit s t) = true).
Proof.
  unfold Gpt.handleUserMessage.
  destruct (Nat.ltb_spec (Gpt.retryCount r) Gpt.maxRetries) as [Hlt|Hge];
    destruct (Nat.leb_spec Gpt.maxRetries (Gpt.retryCount r)) as [Hle|Hgt];
    try lia;
    destruct net as [|[reason|error failure_message|aiResponse] net'];
    destruct (Gpt.voiceFeedback r);
    intros Hsettled; cbn in Hsettled |- *;
    (split; [split; [intros Hin | intros Hmax] | intros Hlow s]);
    try reflexivity; try lia; try (now elim Hsettled);
    try (repeat (destruct Hin as [Hin|Hin]; try discriminate Hin); now elim Hin);
    auto 12.
Qed.

(** C7.  When a call of [processImage] or of [handleUserMessage] settles
    (the request succeeded, or it failed and the [catch] block ran),
    [setIsProcessing(false)] is called exactly when the retry counter the
    handler reads has reached the maximum; below the maximum the flag is left
    as the call set it at its start: true. *)
Theorem processing_flag_cleared_only_at_max
  (rs : Scan.Render) (u : Js.Random) (imageBase64 : string) (question : option string)
  (rg : Gpt.Render) (message : string) (net : list FetchResult) :
  snd (fst (Scan.processImage rs u imageBase64 question net)) <> Awaiting ->
  snd (fst (Gpt.handleUserMessage rg message net)) <> Awaiting ->
  let ts := fst (fst (Scan.processImage rs u imageBase64 question net)) in
  let tg := fst (fst (Gpt.handleUserMessage rg message net)) in
  ((In (Put (Scan.SetIsProcessing false)) ts <-> Scan.maxRetries <= Scan.retryCount rs)
   /\ (Scan.retryCount rs < Scan.maxRetries ->
       forall s, Scan.isProcessing (Scan.commit s ts) = true))
  /\ ((In (Put (Gpt.SetIsProcessing false)) tg <-> Gpt.maxRetries <= Gpt.retryCount rg)
      /\ (Gpt.retryCount rg < Gpt.maxRetries ->
          forall s, Gpt.isProcessing (Gpt.commit s tg) = true)).
Proof.
  intros Hs Hg ts tg. split.
  - apply processImage_flag. exact Hs.
  - apply handleUserMessage_flag. exact Hg.
Qed.

Lemma processing_flag_cleared_only_at_max_witness :
  let rs := scan_render (scan_state false true 0) false EmptyString in
  let rg := gpt_render 0 false "hello" in
  let net := [Ok "a chair"] in
  let ts := fst (fst (Scan.processImage rs half jpeg None net)) in
  let tg := fst (fst (Gpt.handleUserMessage rg "hello" net)) in
  ((In (Put (Scan.SetIsProcessing false)) ts <-> Scan.maxRetries <= Scan.retryCount rs)
   /\ (Scan.retryCount rs < Scan.maxRetries ->
       forall s, Scan.isProcessing (Scan.commit s ts) = true))
  /\ ((In (Put (Gpt.SetIsProcessing false)) tg <-> Gpt.maxRetries <= Gpt.retryCount rg)
      /\ (Gpt.retryCount rg < Gpt.maxRetries ->
          forall s, Gpt.isProcessing (Gpt.commit s tg) = true)).
Proof.
  apply (processing_flag_cleared_only_at_max
           (scan_render (scan_state false true 0) false EmptyString) half jpeg None
           (gpt_render 0 false "hello") "hello" [Ok "a chair"]).
  - vm_compute. discriminate.
  - vm_compute. discriminate.
Defined.

(** A first capture that succeeds at once leaves the page busy: the flag is
    still true once the request has settled. *)
Example first_success_stays_busy :
  let call := Scan.captureImage (scan_render (scan_state false true 0) false EmptyString)
                dom_streaming half Js.ClickEvent [Ok "a chair"] in
  snd (fst call) = Normal
  /\ Scan.isProcessing (Scan.commit (scan_state false true 0) (fst (fst call))) = true
  /\ Scan.analysisResult (Scan.commit (scan_state false true 0) (fst (fst call))) = "a chair".
Proof. vm_compute. repeat split. Qed.

(** ** Retries *)

(** One failed request of [processImage] in a render whose counter is below
    the maximum: the retry is announced with the counter of the render plus
    one, and the same call is scheduled again. *)
Lemma processImage_failure (r : Scan.Render) (u : Js.Random) (imageBase64 : string)
  (question : option string) (f : FetchResult) (net : list FetchResult) :
  has_payload imageBase64 = true ->
  failure f = true ->
  Scan.retryCount r < Scan.maxRetries ->
  let call := Scan.processImage r u imageBase64 question (f :: net) in
  snd call = net
  /\ snd (fst call) = Returned
  /\ toasts (fst (fst call)) = [retry_title (Scan.retryCount r + 1)]
  /\ scheduled (fst (fst call)) = [RetryProcessImage imageBase64 question]
  /\ length (requests (fst (fst call))) = 1
  /\ filter is_analysis (updates (fst (fst call))) = [].
Proof.
  unfold has_payload, Scan.processImage. intros Hp Hf Hlt.
  destruct (nth_error (Js.split ","%char imageBase64) 1) as [[|c data]|];
    try discriminate Hp.
  destruct (Nat.ltb_spec (Scan.retryCount r) Scan.maxRetries) as [_|Hge]; [|lia].
  destruct (Nat.leb_spec Scan.maxRetries (Scan.retryCount r)) as [Hle|_]; [lia|].
  destruct f as [reason|error message|payload]; try discriminate Hf;
    cbn; repeat split.
Qed.

Section ScanRetries.

Variables (r : Scan.Render) (u : Js.Random).
Variables (imageBase64 : string) (question : option string).
Hypothesis payload : has_payload imageBase64 = true.
Hypothesis below : Scan.retryCount r < Scan.maxRetries.

(** However many requests fail, the timers of [processImage] keep firing the
    call of the same render: every failure is announced with the same count,
    the timer is set again, and no result is ever stored. *)
Lemma scan_retry_loop (fails : list FetchResult) :
  Forall (fun f => failure f = true) fails ->
  let out := event_loop (Scan.fire r u) (length fails)
               [RetryProcessImage imageBase64 question] fails in
  toasts (fst (fst out)) = repeat (retry_title (Scan.retryCount r + 1)) (length fails)
  /\ snd (fst out) = [RetryProcessImage imageBase64 question]
  /\ snd out = []
  /\ length (requests (fst (fst out))) = length fails
  /\ filter is_analysis (updates (fst (fst out))) = [].
Proof.
  induction fails as [|f fails IH]; intros Hall.
  - cbn. repeat split.
  - inversion Hall as [|f' fails' Hf Hrest]; subst.
    specialize (IH Hrest).
    destruct (processImage_failure r u imageBase64 question f fails payload Hf below)
      as (Hnet & _ & Htoast & Hsched & Hreq & Hupd).
    cbn [length event_loop Scan.fire].
    destruct (Scan.processImage r u imageBase64 question (f :: fails)) as [c net'].
    cbn [fst snd] in *. subst net'. rewrite Hsched. cbn [app].
    destruct (event_loop (Scan.fire r u) (length fails)
                [RetryProcessImage imageBase64 question] fails) as [[t pending] rest].
    cbn [fst snd] in *.
    destruct IH as (IHt & IHp & IHr & IHq & IHu).
    unfold toasts, requests, updates in *.
    rewrite !flat_map_app, filter_app, length_app.
    rewrite Htoast, IHt, Hupd, IHu, Hreq, IHq. repeat split; assumption.
Qed.

End ScanRetries.

(** C1, on the code.  A capture in the first render with the camera on, all
    requests failing.  After four failed attempts the user has been told
    [Retry 1/3] four times, no result has been stored and a timer for a fifth
    attempt is pending; when it fires, a fifth request is made. *)
Theorem processImage_four_failures :
  let r := scan_render (scan_state false true 0) false EmptyString in
  let call := Scan.captureImage r dom_streaming half Js.Undefined four_failures in
  let after4 := run (Scan.fire r half) 3 call in
  let after5 := run (Scan.fire r half) 4 call in
  toasts (fst (fst after4)) = ["Retry 1/3"; "Retry 1/3"; "Retry 1/3"; "Retry 1/3"]
  /\ length (requests (fst (fst after4))) = 4
  /\ snd after4 = []
  /\ snd (fst after4) = [RetryProcessImage jpeg None]
  /\ filter is_analysis (updates (fst (fst after4))) = []
  /\ Scan.retryCount (Scan.commit r (fst (fst after4))) = 1
  /\ length (requests (fst (fst after5))) = 5.
Proof. vm_compute. repeat split. Qed.

(** In a render whose counter is already at the maximum the first failure is
    answered by the synthetic result at once, with no retry at all. *)
Example processImage_fallback_at_max :
  let r := scan_render (scan_state false true 3) false EmptyString in
  let out := run (Scan.fire r half) 3 (Scan.processImage r half jpeg None four_failures) in
  toasts (fst (fst out)) = ["Using offline mode"]
  /\ length (requests (fst (fst out))) = 1
  /\ filter is_analysis (updates (fst (fst out)))
     = [Scan.SetAnalysisResult (nth 2 Scan.MOCK_RESPONSES EmptyString)]
  /\ Scan.isProcessing (Scan.commit r (fst (fst out))) = false.
Proof. vm_compute. repeat split. Qed.

(** One failed request of [handleUserMessage] in a render whose counter is
    below the maximum. *)
Lemma handleUserMessage_failure (r : Gpt.Render) (message : string)
  (f : FetchResult) (net : list FetchResult) :
  failure f = true ->
  Gpt.retryCount r < Gpt.maxRetries ->
  let call := Gpt.handleUserMessage r message (f :: net) in
  snd call = net
  /\ snd (fst call) = Returned
  /\ toasts (fst (fst call)) = [retry_title (Gpt.retryCount r + 1)]
  /\ scheduled (fst (fst call)) = [RetryHandleUserMessage message]
  /\ length (requests (fst (fst call))) = 1
  /\ appended (fst (fst call)) = [ {| role := User; content := message |} ].
Proof.
  unfold Gpt.handleUserMessage. intros Hf Hlt.
  destruct (Nat.ltb_spec (Gpt.retryCount r) Gpt.maxRetries) as [_|Hge]; [|lia].
  destruct (Nat.leb_spec Gpt.maxRetries (Gpt.retryCount r)) as [Hle|_]; [lia|].
  destruct f as [reason|error failure_message|payload]; try discriminate Hf;
    cbn; repeat split.
Qed.

Section ChatRetries.

Variables (r : Gpt.Render) (message : string).
Hypothesis below : Gpt.retryCount r < Gpt.maxRetries.

(** However many requests fail, the timers of [handleUserMessage] keep firing
    the call of the same render: every failure is announced with the same
    count and appends the message of the user once more, and nothing else is
    ever appended. *)
Lemma chat_retry_loop (fails : list FetchResult) :
  Forall (fun f => failure f = true) fails ->
  let out := event_loop (Gpt.fire r) (length fails)
               [RetryHandleUserMessage message] fails in
  toasts (fst (fst out)) = repeat (retry_title (Gpt.retryCount r + 1)) (length fails)
  /\ snd (fst out) = [RetryHandleUserMessage message]
  /\ snd out = []
  /\ length (requests (fst (fst out))) = length fails
  /\ appended (fst (fst out))
     = repeat {| role := User; content := message |} (length fails).
Proof.
  induction fails as [|f fails IH]; intros Hall.
  - cbn. repeat split.
  - inversion Hall as [|f' fails' Hf Hrest]; subst.
    specialize (IH Hrest).
    destruct (handleUserMessage_failure r message f fails Hf below)
      as (Hnet & _ & Htoast & Hsched & Hreq & Hupd).
    cbn [length event_loop Gpt.fire].
    destruct (Gpt.handleUserMessage r message (f :: fails)) as [c net'].
    cbn [fst snd] in *. subst net'. rewrite Hsched. cbn [app].
    destruct (event_loop (Gpt.fire r) (length fails)
                [RetryHandleUserMessage message] fails) as [[t pending] rest].
    cbn [fst snd] in *.
    destruct IH as (IHt & IHp & IHr & IHq & IHu).
    unfold appended, toasts, requests, updates in *.
    rewrite !flat_map_app, length_app.
    rewrite Htoast, IHt, Hupd, IHu, Hreq, IHq. repeat split; assumption.
Qed.

End ChatRetries.

(** C4, on the code.  A message sent in the first render of the chat, all
    requests failing.  After four failed attempts the user has been told
    [Retry 1/3] four times and the log has gained the message of the user four
    times and no apology; a timer for a fifth attempt is pending, and when it
    fires a fifth request is made. *)
Theorem handleUserMessage_four_failures :
  let r := gpt_render 0 false "hello" in
  let call := Gpt.handleUserMessage r "hello" four_failures in
  let after4 := run (Gpt.fire r) 3 call in
  let after5 := run (Gpt.fire r) 4 call in
  let hello := {| role := User; content := "hello" |} in
  toasts (fst (fst after4)) = ["Retry 1/3"; "Retry 1/3"; "Retry 1/3"; "Retry 1/3"]
  /\ length (requests (fst (fst after4))) = 4
  /\ snd after4 = []
  /\ snd (fst after4) = [RetryHandleUserMessage "hello"]
  /\ Gpt.messages (Gpt.commit r (fst (fst after4)))
     = Gpt.messages Gpt.initial ++ [hello; hello; hello; hello]
  /\ count_occ string_dec
       (map content (Gpt.messages (Gpt.commit r (fst (fst after4)))))
       (content Gpt.apology) = 0
  /\ length (requests (fst (fst after5))) = 5.
Proof. vm_compute. repeat split. Qed.

(** In a render whose counter is already at the maximum the first failure is
    answered by the apology at once, with no retry at all. *)
Example handleUserMessage_apology_at_max :
  let r := gpt_render 3 false "hello" in
  let out := run (Gpt.fire r) 3 (Gpt.handleUserMessage r "hello" four_failures) in
  toasts (fst (fst out)) = ["Error"]
  /\ length (requests (fst (fst out))) = 1
  /\ appended (fst (fst out)) = [ {| role := User; content := "hello" |}; Gpt.apology ].
Proof. vm_compute. repeat split. Qed.

(** ** No render counts the retries up *)

Lemma run_fire {U : Type}
  (fire : Callback -> list FetchResult -> @Cmd U * list FetchResult)
  (fuel : nat) (cb : Callback) (net : list FetchResult) :
  run fire fuel (fire cb net) = event_loop fire (S fuel) [cb] net.
Proof.
  unfold run. cbn [event_loop app].
  destruct (fire cb net) as [c net']. reflexivity.
Qed.

(** A failed request of [processImage] in a render whose counter is at the
    maximum: the synthetic result is stored and no timer is set. *)
Lemma processImage_failure_at_max (r : Scan.Render) (u : Js.Random)
  (imageBase64 : string) (question : option string) (f : FetchResult)
  (net : list FetchResult) :
  has_payload imageBase64 = true ->
  failure f = true ->
  Scan.maxRetries <= Scan.retryCount r ->
  let call := Scan.processImage r u imageBase64 question (f :: net) in
  toasts (fst (fst call)) = ["Using offline mode"]
  /\ scheduled (fst (fst call)) = []
  /\ filter is_analysis (updates (fst (fst call)))
     = [Scan.SetAnalysisResult (Scan.getMockResponse u question)].
Proof.
  unfold has_payload, Scan.processImage. intros Hp Hf Hge.
  destruct (nth_error (Js.split ","%char imageBase64) 1) as [[|c data]|];
    try discriminate Hp.
  destruct (Nat.ltb_spec (Scan.retryCount r) Scan.maxRetries) as [Hlt|_]; [lia|].
  destruct (Nat.leb_spec Scan.maxRetries (Scan.retryCount r)) as [_|Hlt]; [|lia].
  destruct f as [reason|error message|payload]; try discriminate Hf;
    destruct (Scan.voiceFeedback r); cbn; repeat split.
Qed.

(** Whatever the render, four failures in a row are never answered by the
    retry counts 1, 2 and 3 followed by the offline notice. *)
Lemma processImage_never_counts_up (r : Scan.Render) (u : Js.Random)
  (imageBase64 : string) (question : option string) (f1 f2 f3 f4 : FetchResult) :
  has_payload imageBase64 = true ->
  Forall (fun f => failure f = true) [f1; f2; f3; f4] ->
  toasts (fst (fst (run (Scan.fire r u) 3
                      (Scan.processImage r u imageBase64 question [f1; f2; f3; f4]))))
  <> [retry_title 1; retry_title 2; retry_title 3; "Using offline mode"].
Proof.
  intros Hp Hall.
  change (Scan.processImage r u imageBase64 question [f1; f2; f3; f4])
    with (Scan.fire r u (RetryProcessImage imageBase64 question) [f1; f2; f3; f4]).
  rewrite run_fire.
  destruct (Nat.lt_ge_cases (Scan.retryCount r) Scan.maxRetries) as [Hlt|Hge].
  - destruct (scan_retry_loop r u imageBase64 question Hp Hlt [f1; f2; f3; f4] Hall)
      as (Ht & _).
    cbn [length] in Ht. rewrite Ht. cbn [repeat]. intros Heq.
    injection Heq as H1 H2 _ _.
    rewrite H1 in H2. vm_compute in H2. discriminate H2.
  - inversion Hall as [|? ? Hf _]; subst.
    destruct (processImage_failure_at_max r u imageBase64 question f1 [f2; f3; f4]
                Hp Hf Hge) as (Ht & Hs & _).
    cbn [event_loop Scan.fire].
    destruct (Scan.processImage r u imageBase64 question [f1; f2; f3; f4]) as [c net'].
    cbn [fst snd] in *. rewrite Hs. cbn [app event_loop].
    cbn [fst snd]. rewrite app_nil_r, Ht. discriminate.
Qed.

(** A failed request of [handleUserMessage] in a render whose counter is at
    the maximum: the apology is appended and no timer is set. *)
Lemma handleUserMessage_failure_at_max (r : Gpt.Render) (message : string)
  (f : FetchResult) (net : list FetchResult) :
  failure f = true ->
  Gpt.maxRetries <= Gpt.retryCount r ->
  let call := Gpt.handleUserMessage r message (f :: net) in
  toasts (fst (fst call)) = ["Error"]
  /\ scheduled (fst (fst call)) = []
  /\ appended (fst (fst call)) = [ {| role := User; content := message |}; Gpt.apology ].
Proof.
  unfold Gpt.handleUserMessage. intros Hf Hge.
  destruct (Nat.ltb_spec (Gpt.retryCount r) Gpt.maxRetries) as [Hlt|_]; [lia|].
  destruct (Nat.leb_spec Gpt.maxRetries (Gpt.retryCount r)) as [_|Hlt]; [|lia].
  destruct f as [reason|error failure_message|payload]; try discriminate Hf;
    cbn; repeat split.
Qed.

(** Whatever the render, four failures in a row are never answered by the
    retry counts 1, 2 and 3 followed by the error notice of the apology. *)
Lemma handleUserMessage_never_counts_up (r : Gpt.Render) (message : string)
  (f1 f2 f3 f4 : FetchResult) :
  Forall (fun f => failure f = true) [f1; f2; f3; f4] ->
  toasts (fst (fst (run (Gpt.fire r) 3
                      (Gpt.handleUserMessage r message [f1; f2; f3; f4]))))
  <> [retry_title 1; retry_title 2; retry_title 3; "Error"].
Proof.
  intros Hall.
  change (Gpt.handleUserMessage r message [f1; f2; f3; f4])
    with (Gpt.fire r (RetryHandleUserMessage message) [f1; f2; f3; f4]).
  rewrite run_fire.
  destruct (Nat.lt_ge_cases (Gpt.retryCount r) Gpt.maxRetries) as [Hlt|Hge].
  - destruct (chat_retry_loop r message Hlt [f1; f2; f3; f4] Hall) as (Ht & _).
    cbn [length] in Ht. rewrite Ht. cbn [repeat]. intros Heq.
    injection Heq as H1 H2 _ _.
    rewrite H1 in H2. vm_compute in H2. discriminate H2.
  - inversion Hall as [|? ? Hf _]; subst.
    destruct (handleUserMessage_failure_at_max r message f1 [f2; f3; f4] Hf Hge)
      as (Ht & Hs & _).
    cbn [event_loop Gpt.fire].
    destruct (Gpt.handleUserMessage r message [f1; f2; f3; f4]) as [c net'].
    cbn [fst snd] in *. rewrite Hs. cbn [app event_loop].
    cbn [fst snd]. rewrite app_nil_r, Ht. discriminate.
Qed.

(** ** More on the command interpreters *)





(** ** More on the camera *)

(** X3.  [startCamera] marks the camera active exactly when there is a video
    element and [getUserMedia] resolved, and then the stream it resolved to is
    the one attached to the element.  When [getUserMedia] rejects, the
    elements are left as they were and the user is told by a toast and by
    speech; with no video element nothing is asked for at all. *)
Theorem startCamera_outcomes (d : Scan.Dom) (media : string + Scan.Stream) :
  let d' := fst (Scan.startCamera d media) in
  let t := fst (snd (Scan.startCamera d media)) in
  (In (Put (Scan.SetCameraActive true)) t
   <-> exists video stream, Scan.videoRef d = Some video /\ media = inr stream)
  /\ (forall stream, In (Put (Scan.SetCameraActive true)) t -> media = inr stream ->
      Scan.videoRef d' = Some {| Scan.srcObject := Some stream |})
  /\ (forall video reason, Scan.videoRef d = Some video -> media = inl reason ->
      d' = d
      /\ toasts t = ["Camera Error"]
      /\ In (Do (Speak "Could not access camera. Please check permissions.")) t
      /\ updates t = [])
  /\ (Scan.videoRef d = None -> d' = d /\ t = []).
Proof.
  unfold Scan.startCamera.
  destruct (Scan.videoRef d) as [video|] eqn:Hv; destruct media as [reason|stream];
    cbn [fst snd].
  - split; [|split; [|split]].
    + split; [|intros (v & s & _ & H); discriminate H].
      cbn. intros H. repeat (destruct H as [H|H]; try discriminate H). contradiction.
    + intros s _ H. discriminate H.
    + intros v reason' _ _. cbn. destruct (Scan.canVibrate d); repeat split; auto.
    + intros H. discriminate H.
  - split; [|split; [|split]].
    + split; [intros _; exists video, stream; split; reflexivity|].
      intros _. destruct (Scan.canVibrate d); cbn; auto.
    + intros s _ H. injection H as <-. reflexivity.
    + intros v reason _ H. discriminate H.
    + intros H. discriminate H.
  - split; [|split; [|split]].
    + split; [intros [] | intros (v & _ & H & _); discriminate H].
    + intros s [].
    + intros v reason' H. discriminate H.
    + intros _. split; reflexivity.
  - split; [|split; [|split]].
    + split; [intros [] | intros (v & _ & H & _); discriminate H].
    + intros s [].
    + intros v reason' H. discriminate H.
    + intros _. split; reflexivity.
Qed.

Lemma toasts_app {U : Type} (a b : @Trace U) : toasts (a ++ b) = toasts a ++ toasts b.
Proof. apply flat_map_app. Qed.

Lemma updates_app {U : Type} (a b : @Trace U) : updates (a ++ b) = updates a ++ updates b.
Proof. apply flat_map_app. Qed.

Lemma stopCamera_trace (d : Scan.Dom) (video : Scan.Video) (stream : Scan.Stream) :
  Scan.videoRef d = Some video ->
  Scan.srcObject video = Some stream ->
  fst (snd (Scan.stopCamera d))
  = map (fun track => Do (StopTrack track)) (Scan.tracks stream)
    ++ [Put (Scan.SetCameraActive false);
        Do (Toast "Camera stopped" "Camera has been turned off" DefaultVariant)].
Proof.
  intros Hv Hs. unfold Scan.stopCamera. rewrite Hv, Hs. reflexivity.
Qed.

Lemma stopped_tracks (l : list nat) (rest : @Trace Scan.Update) :
  stopped (map (fun track => Do (StopTrack track)) l ++ rest) = l ++ stopped rest.
Proof.
  induction l as [|x l IH]; cbn; [reflexivity|]. f_equal. exact IH.
Qed.

Lemma updates_tracks (l : list nat) (rest : @Trace Scan.Update) :
  updates (map (fun track => Do (StopTrack track)) l ++ rest) = updates rest.
Proof. induction l as [|x l IH]; cbn; [reflexivity | exact IH]. Qed.

Lemma toasts_tracks (l : list nat) (rest : @Trace Scan.Update) :
  toasts (map (fun track => Do (StopTrack track)) l ++ rest) = toasts rest.
Proof. induction l as [|x l IH]; cbn; [reflexivity | exact IH]. Qed.

(** X4.  Starting the camera and then stopping it gives the elements back
    without a stream: the second call stops every track of the stream the
    first one attached, each once and in order, and the flag the two calls
    leave is false. *)
Theorem start_then_stopCamera (d : Scan.Dom) (video : Scan.Video) (stream : Scan.Stream)
  (s : Scan.State) :
  Scan.videoRef d = Some video ->
  let started := Scan.startCamera d (inr stream) in
  let stopped_ := Scan.stopCamera (fst started) in
  no_stream (fst stopped_) = true
  /\ stopped (fst (snd stopped_)) = Scan.tracks stream
  /\ Scan.cameraActive (Scan.commit s (fst (snd started))) = true
  /\ Scan.cameraActive
       (Scan.commit (Scan.commit s (fst (snd started))) (fst (snd stopped_))) = false
  /\ toasts (fst (snd started) ++ fst (snd stopped_)) = ["Camera activated"; "Camera stopped"].
Proof.
  intros Hv started stopped_.
  assert (Hd : fst started
               = {| Scan.videoRef := Some {| Scan.srcObject := Some stream |};
                    Scan.canvasRef := Scan.canvasRef d;
                    Scan.canVibrate := Scan.canVibrate d |}).
  { subst started. unfold Scan.startCamera. rewrite Hv. reflexivity. }
  assert (Ht : fst (snd stopped_)
               = map (fun track => Do (StopTrack track)) (Scan.tracks stream)
                 ++ [Put (Scan.SetCameraActive false);
                     Do (Toast "Camera stopped" "Camera has been turned off"
                           DefaultVariant)]).
  { subst stopped_. rewrite Hd.
    apply (stopCamera_trace _ {| Scan.srcObject := Some stream |}); reflexivity. }
  assert (Hs : fst (snd started)
               = [Do GetUserMedia; Put (Scan.SetCameraActive true);
                  Do (Toast "Camera activated"
                        "Say 'take picture' or click the camera button to analyze"
                        DefaultVariant)]
                 ++ (if Scan.canVibrate d then [Do (Vibrate 200)] else [])).
  { subst started. unfold Scan.startCamera. rewrite Hv.
    destruct (Scan.canVibrate d); reflexivity. }
  split; [apply stopCamera_detaches|].
  split; [rewrite Ht, stopped_tracks; apply app_nil_r|].
  split; [rewrite Hs; destruct (Scan.canVibrate d); reflexivity|].
  split.
  - unfold Scan.commit at 1. rewrite Ht, updates_tracks. reflexivity.
  - rewrite toasts_app, Ht, toasts_tracks, Hs.
    destruct (Scan.canVibrate d); reflexivity.
Qed.

Lemma start_then_stopCamera_witness :
  let started := Scan.startCamera dom_idle (inr {| Scan.tracks := [7; 8] |}) in
  let stopped_ := Scan.stopCamera (fst started) in
  no_stream (fst stopped_) = true
  /\ stopped (fst (snd stopped_)) = [7; 8]
  /\ Scan.cameraActive (Scan.commit Scan.initial (fst (snd started))) = true
  /\ Scan.cameraActive
       (Scan.commit (Scan.commit Scan.initial (fst (snd started))) (fst (snd stopped_)))
     = false
  /\ toasts (fst (snd started) ++ fst (snd stopped_)) = ["Camera activated"; "Camera stopped"].
Proof.
  apply (start_then_stopCamera dom_idle {| Scan.srcObject := None |}
           {| Scan.tracks := [7; 8] |} Scan.initial).
  reflexivity.
Defined.

(** X5.  The back button of the scan page always releases the camera: after
    it no stream is attached, every track of the stream that was attached has
    been stopped, and the page goes home once that is done. *)
Theorem goBack_releases_camera (d : Scan.Dom) :
  let d' := fst (Scan.goBack d) in
  let t := snd (Scan.goBack d) in
  no_stream d' = true
  /\ (forall video stream, Scan.videoRef d = Some video ->
      Scan.srcObject video = Some stream -> stopped t = Scan.tracks stream)
  /\ exists middle,
       t = Do (Speak "Going back to home page") :: middle ++ [Do (RouterPush "/")].
Proof.
  unfold Scan.goBack. cbn [fst snd]. split; [apply stopCamera_detaches|].
  split; [|eexists; reflexivity].
  intros video stream Hv Hs. rewrite (stopCamera_trace d video stream Hv Hs).
  cbn [app]. rewrite <- app_assoc. cbn [stopped flat_map app].
  fold (stopped (map (fun track => Do (StopTrack track)) (Scan.tracks stream)
                 ++ [Put (Scan.SetCameraActive false);
                     Do (Toast "Camera stopped" "Camera has been turned off"
                           DefaultVariant)] ++ [Do (RouterPush "/")])).
  rewrite stopped_tracks. apply app_nil_r.
Qed.

(** ** More on the image request *)

Lemma split_nonempty (sep : ascii) (s : string) : Js.split sep s <> [].
Proof.
  destruct s as [|c s]; cbn; [discriminate|].
  destruct (Ascii.eqb c sep); [discriminate|].
  destruct (Js.split sep s); discriminate.
Qed.

(** No piece of [s.split(sep)] holds the separator. *)
Lemma split_piece_no_sep (sep : ascii) (s piece : string) :
  In piece (Js.split sep s) -> Js.includes piece (String sep EmptyString) = false.
Proof.
  revert piece. induction s as [|c s IH]; intros piece Hin.
  - destruct Hin as [<-|[]]. reflexivity.
  - cbn [Js.split] in Hin. destruct (Ascii.eqb_spec c sep) as [->|Hne].
    + destruct Hin as [<-|Hin]; [reflexivity | apply IH, Hin].
    + assert (Hhead : forall p, Js.includes p (String sep EmptyString) = false ->
                Js.includes (String c p) (String sep EmptyString) = false).
      { intros p Hp. cbn [Js.includes String.prefix].
        destruct (ascii_dec sep c) as [->|_]; [now elim Hne|]. exact Hp. }
      destruct (Js.split sep s) as [|p ps] eqn:Hs.
      * destruct Hin as [<-|[]]. apply Hhead. reflexivity.
      * destruct Hin as [<-|Hin]; [apply Hhead, IH; now left | apply IH; now right].
Qed.

Lemma request_of_payload (r : Scan.Render) (u : Js.Random)
  (imageBase64 : string) (question : option string) (net : list FetchResult) :
  has_payload imageBase64 = true ->
  exists data,
    nth_error (Js.split ","%char imageBase64) 1 = Some data
    /\ data <> EmptyString
    /\ requests (fst (fst (Scan.processImage r u imageBase64 question net)))
       = [AnalyzeBody data (prompt_of question)].
Proof.
  unfold has_payload. intros Hp.
  destruct (nth_error (Js.split ","%char imageBase64) 1) as [[|c data]|] eqn:Hn;
    try discriminate Hp.
  exists (String c data). split; [reflexivity|]. split; [discriminate|].
  unfold Scan.processImage. rewrite Hn.
  destruct (Nat.ltb (Scan.retryCount r) Scan.maxRetries);
    destruct (Nat.leb Scan.maxRetries (Scan.retryCount r));
    destruct net as [|[reason|error message|analysis] net'];
    destruct (Scan.voiceFeedback r);
    destruct question as [[|c' q]|]; reflexivity.
Qed.

(** X6.  When the payload carries data after the comma, [processImage] makes
    one request, whatever the answer: its image is that data, which is not
    empty and holds no comma (the prefix of the data URL is never sent), and
    its prompt is the question when there is a non-empty one and the fixed
    request for a description otherwise. *)
Theorem processImage_request_body (r : Scan.Render) (u : Js.Random)
  (imageBase64 : string) (question : option string) (net : list FetchResult) :
  has_payload imageBase64 = true ->
  exists data,
    nth_error (Js.split ","%char imageBase64) 1 = Some data
    /\ data <> EmptyString
    /\ Js.includes data "," = false
    /\ requests (fst (fst (Scan.processImage r u imageBase64 question net)))
       = [AnalyzeBody data (prompt_of question)].
Proof.
  intros Hp.
  destruct (request_of_payload r u imageBase64 question net Hp) as (data & Hn & He & Hq).
  exists data. split; [exact Hn|]. split; [exact He|]. split; [|exact Hq].
  apply (split_piece_no_sep ","%char imageBase64).
  apply (nth_error_In _ 1). exact Hn.
Qed.

Lemma processImage_request_body_witness :
  exists data,
    nth_error (Js.split ","%char jpeg) 1 = Some data
    /\ data <> EmptyString
    /\ Js.includes data "," = false
    /\ requests (fst (fst (Scan.processImage
                             (scan_render (scan_state false true 0) false EmptyString)
                             half jpeg (Some "is there a door") four_failures)))
       = [AnalyzeBody data (prompt_of (Some "is there a door"))].
Proof.
  apply (processImage_request_body
           (scan_render (scan_state false true 0) false EmptyString)
           half jpeg (Some "is there a door") four_failures).
  reflexivity.
Defined.

(** X7.  A request that succeeds: the result stored is the analysis the
    endpoint gave, no retry is scheduled and nothing synthetic is stored, the
    response is consumed, the user is told the analysis is complete, and the
    analysis is spoken exactly when voice feedback is on. *)
Theorem processImage_success (r : Scan.Render) (u : Js.Random) (imageBase64 : string)
  (question : option string) (analysis : string) (net : list FetchResult)
  (s : Scan.State) :
  has_payload imageBase64 = true ->
  let call := Scan.processImage r u imageBase64 question (Ok analysis :: net) in
  let t := fst (fst call) in
  snd call = net
  /\ snd (fst call) = Normal
  /\ scheduled t = []
  /\ toasts t = ["Analysis complete"]
  /\ filter is_analysis (updates t) = [Scan.SetAnalysisResult analysis]
  /\ Scan.analysisResult (Scan.commit s t) = analysis
  /\ (In (Do (Speak analysis)) t <-> Scan.voiceFeedback r = true).
Proof.
  unfold has_payload, Scan.processImage. intros Hp.
  destruct (nth_error (Js.split ","%char imageBase64) 1) as [[|c data]|];
    try discriminate Hp.
  destruct (Nat.ltb (Scan.retryCount r) Scan.maxRetries);
    destruct (Nat.leb Scan.maxRetries (Scan.retryCount r));
    destruct (Scan.voiceFeedback r);
    cbn; repeat split; auto; try discriminate;
    intros H; repeat (destruct H as [H|H]; try discriminate H); contradiction.
Qed.

Lemma processImage_success_witness :
  let call := Scan.processImage (scan_render (scan_state false true 0) false EmptyString)
                half jpeg None [Ok "a chair"; Ok "a table"] in
  let t := fst (fst call) in
  snd call = [Ok "a table"]
  /\ snd (fst call) = Normal
  /\ scheduled t = []
  /\ toasts t = ["Analysis complete"]
  /\ filter is_analysis (updates t) = [Scan.SetAnalysisResult "a chair"]
  /\ Scan.analysisResult (Scan.commit Scan.initial t) = "a chair"
  /\ (In (Do (Speak "a chair")) t <-> true = true).
Proof.
  apply (processImage_success (scan_render (scan_state false true 0) false EmptyString)
           half jpeg None "a chair" [Ok "a table"] Scan.initial).
  reflexivity.
Defined.

(** X8.  With voice feedback off, neither the image request nor the chat
    request ever speaks: whatever the payload, the question, the message and
    the answers, no call of [speak] is in the trace of [processImage] or of
    [handleUserMessage]. *)
Theorem requests_respect_voiceFeedback (rs : Scan.Render) (u : Js.Random)
  (imageBase64 : string) (question : option string)
  (rg : Gpt.Render) (message : string) (net : list FetchResult) :
  Scan.voiceFeedback rs = false ->
  Gpt.voiceFeedback rg = false ->
  filter (is_speak Scan.Update)
    (fst (fst (Scan.processImage rs u imageBase64 question net))) = []
  /\ filter (is_speak Gpt.Update)
       (fst (fst (Gpt.handleUserMessage rg message net))) = [].
Proof.
  intros Hs Hg. split.
  - unfold Scan.processImage. rewrite Hs.
    destruct (Nat.ltb (Scan.retryCount rs) Scan.maxRetries);
      destruct (Nat.leb Scan.maxRetries (Scan.retryCount rs));
      destruct (nth_error (Js.split ","%char imageBase64) 1) as [[|c data]|];
      destruct net as [|[reason|error failure_message|analysis] net'];
      reflexivity.
  - unfold Gpt.handleUserMessage. rewrite Hg.
    destruct (Nat.ltb (Gpt.retryCount rg) Gpt.maxRetries);
      destruct (Nat.leb Gpt.maxRetries (Gpt.retryCount rg));
      destruct net as [|[reason|error failure_message|aiResponse] net'];
      reflexivity.
Qed.

Lemma requests_respect_voiceFeedback_witness :
  let rs := {| Scan.state := scan_state false true 3; Scan.voiceFeedback := false;
               Scan.transcript := EmptyString; Scan.isSpeaking := false |} in
  let rg := {| Gpt.state := Gpt.initial; Gpt.voiceFeedback := false;
               Gpt.transcript := "hello"; Gpt.isSpeaking := false |} in
  filter (is_speak Scan.Update)
    (fst (fst (Scan.processImage rs half jpeg None four_failures))) = []
  /\ filter (is_speak Gpt.Update)
       (fst (fst (Gpt.handleUserMessage rg "hello" four_failures))) = [].
Proof.
  apply (requests_respect_voiceFeedback
           {| Scan.state := scan_state false true 3; Scan.voiceFeedback := false;
              Scan.transcript := EmptyString; Scan.isSpeaking := false |}
           half jpeg None
           {| Gpt.state := Gpt.initial; Gpt.voiceFeedback := false;
              Gpt.transcript := "hello"; Gpt.isSpeaking := false |}
           "hello" four_failures); reflexivity.
Defined.

(** X9.  A call that settles in a render whose retry counter is at the
    maximum leaves the page idle: no timer is set, the processing flag is
    false and the retry counter is zero; on the scan page the question shown
    under the result is cleared as well. *)
Theorem settle_at_max_is_idle (rs : Scan.Render) (u : Js.Random) (imageBase64 : string)
  (question : option string) (rg : Gpt.Render) (message : string)
  (net : list FetchResult) (ss : Scan.State) (sg : Gpt.State) :
  snd (fst (Scan.processImage rs u imageBase64 question net)) <> Awaiting ->
  snd (fst (Gpt.handleUserMessage rg message net)) <> Awaiting ->
  Scan.maxRetries <= Scan.retryCount rs ->
  Gpt.maxRetries <= Gpt.retryCount rg ->
  let ts := fst (fst (Scan.processImage rs u imageBase64 question net)) in
  let tg := fst (fst (Gpt.handleUserMessage rg message net)) in
  (scheduled ts = []
   /\ Scan.isProcessing (Scan.commit ss ts) = false
   /\ Scan.retryCount (Scan.commit ss ts) = 0
   /\ Scan.userQuestion (Scan.commit ss ts) = EmptyString)
  /\ (scheduled tg = []
      /\ Gpt.isProcessing (Gpt.commit sg tg) = false
      /\ Gpt.retryCount (Gpt.commit sg tg) = 0).
Proof.
  intros Hs Hg Hms Hmg ts tg. subst ts tg. split.
  - revert Hs. unfold Scan.processImage.
    destruct (Nat.ltb_spec (Scan.retryCount rs) Scan.maxRetries) as [Hlt|_]; [lia|].
    destruct (Nat.leb_spec Scan.maxRetries (Scan.retryCount rs)) as [_|Hlt]; [|lia].
    destruct (nth_error (Js.split ","%char imageBase64) 1) as [[|c data]|];
      try destruct net as [|[reason|error failure_message|analysis] net'];
      destruct (Scan.voiceFeedback rs);
      cbn; intros Hs; try (now elim Hs); repeat split.
  - revert Hg. unfold Gpt.handleUserMessage.
    destruct (Nat.ltb_spec (Gpt.retryCount rg) Gpt.maxRetries) as [Hlt|_]; [lia|].
    destruct (Nat.leb_spec Gpt.maxRetries (Gpt.retryCount rg)) as [_|Hlt]; [|lia].
    destruct net as [|[reason|error failure_message|aiResponse] net'];
      destruct (Gpt.voiceFeedback rg);
      cbn; intros Hg; try (now elim Hg); repeat split.
Qed.

Lemma settle_at_max_is_idle_witness :
  let rs := scan_render (scan_state false true 3) false EmptyString in
  let rg := gpt_render 3 false "hello" in
  let ts := fst (fst (Scan.processImage rs half jpeg (Some "what") four_failures)) in
  let tg := fst (fst (Gpt.handleUserMessage rg "hello" four_failures)) in
  (scheduled ts = []
   /\ Scan.isProcessing (Scan.commit (scan_state false true 3) ts) = false
   /\ Scan.retryCount (Scan.commit (scan_state false true 3) ts) = 0
   /\ Scan.userQuestion (Scan.commit (scan_state false true 3) ts) = EmptyString)
  /\ (scheduled tg = []
      /\ Gpt.isProcessing (Gpt.commit Gpt.initial tg) = false
      /\ Gpt.retryCount (Gpt.commit Gpt.initial tg) = 0).
Proof.
  apply (settle_at_max_is_idle (scan_render (scan_state false true 3) false EmptyString)
           half jpeg (Some "what") (gpt_render 3 false "hello") "hello" four_failures
           (scan_state false true 3) Gpt.initial).
  - vm_compute. discriminate.
  - vm_compute. discriminate.
  - vm_compute. lia.
  - vm_compute. lia.
Defined.

(** ** Capturing *)

Lemma requests_app {U : Type} (a b : @Trace U) :
  requests (a ++ b) = requests a ++ requests b.
Proof. apply flat_map_app. Qed.

(** [captureImage] on a camera that is on and ready: the frame is drawn and
    encoded, the retry counter is reset, and the encoded frame is processed. *)
Lemma captureImage_ready (r : Scan.Render) (d : Scan.Dom) (u : Js.Random)
  (question : Js.Arg) (net : list FetchResult) (image : string) :
  Scan.cameraActive r = true ->
  ready d = Some image ->
  let processed :=
    Scan.processImage r u image
      (if Js.arg_truthy question then Some (Js.to_string question) else None) net in
  Scan.captureImage r d u question net
  = ([Do (ResizeCanvas 70); Do DrawImage; Do (ToDataURL 70); Put (Scan.SetRetryCount 0)]
     ++ fst (fst processed),
     snd (fst processed),
     snd processed).
Proof.
  unfold ready, Scan.captureImage. intros Hc Hr. rewrite Hc.
  destruct (Scan.videoRef d) as [video|]; [|discriminate Hr].
  destruct (Scan.canvasRef d) as [canvas|]; [|discriminate Hr].
  destruct (Scan.context2d canvas); [|discriminate Hr].
  injection Hr as <-. reflexivity.
Qed.

(** X10.  Pressing the camera button while the camera is on and the page is
    not busy calls [captureImage] with the click event as its argument, and
    the event is taken for a question: the prompt of the request is the event
    turned into a string, not the fixed request for a description. *)
Theorem camera_button_prompt (r : Scan.Render) (d : Scan.Dom)
  (media : string + Scan.Stream) (u : Js.Random) (net : list FetchResult)
  (image : string) :
  Scan.isProcessing r = false ->
  Scan.cameraActive r = true ->
  ready d = Some image ->
  has_payload image = true ->
  exists data,
    nth_error (Js.split ","%char image) 1 = Some data
    /\ requests (fst (snd (fst (Scan.onCameraButton r d media u net))))
       = [AnalyzeBody data "[object Object]"].
Proof.
  intros Hp Hc Hr Hi.
  destruct (request_of_payload r u image (Some "[object Object]") net Hi)
    as (data & Hd & _ & Hq).
  exists data. split; [exact Hd|].
  unfold Scan.onCameraButton, Scan.invoke. rewrite Hp, Hc. cbn [fst snd].
  rewrite (captureImage_ready r d u Js.ClickEvent net image Hc Hr).
  cbn [fst snd Js.arg_truthy Js.to_string]. rewrite requests_app. exact Hq.
Qed.

Lemma camera_button_prompt_witness :
  exists data,
    nth_error (Js.split ","%char jpeg) 1 = Some data
    /\ requests (fst (snd (fst (Scan.onCameraButton
                                  (scan_render (scan_state false true 0) false EmptyString)
                                  dom_streaming (inl "denied") half four_failures))))
       = [AnalyzeBody data "[object Object]"].
Proof.
  apply (camera_button_prompt (scan_render (scan_state false true 0) false EmptyString)
           dom_streaming (inl "denied") half four_failures jpeg); reflexivity.
Defined.




(** ** More on the microphone button *)

(** X12.  On both pages, [toggleListening] in a render where nothing is being
    spoken flips the listening flag: it starts the recognition exactly when
    the page was not listening and stops it exactly when it was, never both,
    and shows one toast. *)
Theorem toggleListening_flips (rs : Scan.Render) (d : Scan.Dom) (ss : Scan.State)
  (rg : Gpt.Render) (canVibrate : bool) (sg : Gpt.State) :
  Scan.isSpeaking rs = false ->
  Gpt.isSpeaking rg = false ->
  let ts := fst (Scan.toggleListening rs d) in
  let tg := fst (Gpt.toggleListening rg canVibrate) in
  (Scan.isListening (Scan.commit ss ts) = negb (Scan.isListening rs)
   /\ (In (Do StartListening) ts <-> Scan.isListening rs = false)
   /\ (In (Do StopListening) ts <-> Scan.isListening rs = true)
   /\ length (toasts ts) = 1)
  /\ (Gpt.isListening (Gpt.commit sg tg) = negb (Gpt.isListening rg)
      /\ (In (Do StartListening) tg <-> Gpt.isListening rg = false)
      /\ (In (Do StopListening) tg <-> Gpt.isListening rg = true)
      /\ length (toasts tg) = 1).
Proof.
  intros Hs Hg ts tg. subst ts tg.
  unfold Scan.toggleListening, Gpt.toggleListening. rewrite Hs, Hg.
  destruct (Scan.isListening rs), (Gpt.isListening rg), (Scan.canVibrate d), canVibrate,
    (Scan.cameraActive rs);
    cbn; repeat split; auto; try discriminate;
    intros H; repeat (destruct H as [H|H]; try discriminate H); contradiction.
Qed.

Lemma toggleListening_flips_witness :
  let ts := fst (Scan.toggleListening
                   (scan_render (scan_state false true 0) false EmptyString) dom_streaming) in
  let tg := fst (Gpt.toggleListening (gpt_render 0 false EmptyString) true) in
  (Scan.isListening (Scan.commit Scan.initial ts) = negb false
   /\ (In (Do StartListening) ts <-> false = false)
   /\ (In (Do StopListening) ts <-> false = true)
   /\ length (toasts ts) = 1)
  /\ (Gpt.isListening (Gpt.commit Gpt.initial tg) = negb true
      /\ (In (Do StartListening) tg <-> true = false)
      /\ (In (Do StopListening) tg <-> true = true)
      /\ length (toasts tg) = 1).
Proof.
  apply (toggleListening_flips (scan_render (scan_state false true 0) false EmptyString)
           dom_streaming Scan.initial (gpt_render 0 false EmptyString) true Gpt.initial);
    reflexivity.
Defined.

(** ** More on the chat *)


(** X14.  Whatever the answer of the endpoint (or none yet),
    [handleUserMessage] first puts the message of the user at the end of the
    log and stops listening, and makes one request whose history is the log
    of its render followed by that message. *)
Theorem handleUserMessage_always (r : Gpt.Render) (message : string)
  (net : list FetchResult) (s : Gpt.State) :
  let t := fst (fst (Gpt.handleUserMessage r message net)) in
  let userMessage := {| role := User; content := message |} in
  (exists rest, Gpt.messages (Gpt.commit s t) = Gpt.messages s ++ userMessage :: rest)
  /\ Gpt.isListening (Gpt.commit s t) = false
  /\ In (Do StopListening) t
  /\ requests t = [ChatBody (Gpt.messages r ++ [userMessage])].
Proof.
  unfold Gpt.handleUserMessage.
  destruct (Nat.ltb (Gpt.retryCount r) Gpt.maxRetries);
    destruct (Nat.leb Gpt.maxRetries (Gpt.retryCount r));
    destruct net as [|[reason|error failure_message|aiResponse] net'];
    destruct (Gpt.voiceFeedback r);
    cbn; (split; [|split; [reflexivity|split; [auto|reflexivity]]]);
    try (exists []; reflexivity);
    try (eexists; rewrite <- app_assoc; reflexivity).
Qed.

(** X15.  A chat request that succeeds: the log gains the message of the
    user and then the answer of the endpoint, in that order and nothing
    else; no retry is scheduled and the user is told an answer came. *)
Theorem handleUserMessage_success (r : Gpt.Render) (message reply : string)
  (net : list FetchResult) (s : Gpt.State) :
  let call := Gpt.handleUserMessage r message (Ok reply :: net) in
  let t := fst (fst call) in
  Gpt.messages (Gpt.commit s t)
  = Gpt.messages s ++ [ {| role := User; content := message |};
                        {| role := Assistant; content := reply |} ]
  /\ snd call = net
  /\ scheduled t = []
  /\ toasts t = ["Response received"]
  /\ (In (Do (Speak reply)) t <-> Gpt.voiceFeedback r = true).
Proof.
  unfold Gpt.handleUserMessage.
  destruct (Nat.ltb (Gpt.retryCount r) Gpt.maxRetries);
    destruct (Nat.leb Gpt.maxRetries (Gpt.retryCount r));
    destruct (Gpt.voiceFeedback r);
    cbn; (split; [rewrite <- app_assoc; reflexivity|]);
    repeat split; auto; try discriminate;
    try solve [intros _; auto 15];
    intros H; repeat (destruct H as [H|H]; try discriminate H); contradiction.
Qed.

(** ** The speech recognition hook *)

Lemma steps_app (s : Recognition.State) (before after : list Recognition.Op) :
  Recognition.steps s (before ++ after)
  = Recognition.steps (Recognition.steps s before) after.
Proof. apply fold_left_app. Qed.

(** X16.  [startListening] calls the recognition object exactly when the hook
    has one, and turns the listening flag on only when that call did not
    throw; then the error is cleared.  When the call throws, or when there is
    no recognition object, the flag is left as it was and an error is set. *)
Theorem startListening_outcomes (s : Recognition.State) (thrown : option string) :
  let t := Recognition.startListening s thrown in
  let s' := Recognition.commit s t in
  (In Recognition.EngineStart t <-> Recognition.recognition s <> None)
  /\ (Recognition.recognition s <> None -> thrown = None ->
      Recognition.isListening s' = true /\ Recognition.error s' = None)
  /\ (Recognition.recognition s = None \/ thrown <> None ->
      Recognition.isListening s' = Recognition.isListening s
      /\ Recognition.error s' <> None)
  /\ Recognition.transcript s' = Recognition.transcript s
  /\ Recognition.recognition s' = Recognition.recognition s.
Proof.
  unfold Recognition.startListening.
  destruct (Recognition.recognition s) as [i|] eqn:Hr; destruct thrown as [err|]; cbn.
  - split; [split; [discriminate | auto]|].
    split; [intros _ H; discriminate H|].
    split; [intros _; split; [reflexivity | discriminate]|].
    split; [reflexivity | exact Hr].
  - split; [split; [discriminate | auto]|].
    split; [intros _ _; split; reflexivity|].
    split; [intros [H|H]; [discriminate H | now elim H]|].
    split; [reflexivity | exact Hr].
  - split; [split; [intros [H|[]]; discriminate H | intros H; now elim H]|].
    split; [intros H; now elim H|].
    split; [intros _; split; [reflexivity | discriminate]|].
    split; [reflexivity | exact Hr].
  - split; [split; [intros [H|[]]; discriminate H | intros H; now elim H]|].
    split; [intros H; now elim H|].
    split; [intros _; split; [reflexivity | discriminate]|].
    split; [reflexivity | exact Hr].
Qed.

Lemma step_keeps_recognition (s : Recognition.State) (o : Recognition.Op) :
  Recognition.recognition (Recognition.step s o) = Recognition.recognition s.
Proof.
  destruct o as [[err|]| | |results resultIndex|code|];
    unfold Recognition.step, Recognition.startListening, Recognition.stopListening,
      Recognition.onresult;
    try destruct (Recognition.recognition s) eqn:Hr;
    try destruct (nth_error results resultIndex) as [[|first rest]|];
    cbn; auto.
Qed.

Lemma steps_keep_recognition (s : Recognition.State) (ops : list Recognition.Op) :
  Recognition.recognition (Recognition.steps s ops) = Recognition.recognition s.
Proof.
  revert s. induction ops as [|o ops IH]; intros s; [reflexivity|].
  cbn [Recognition.steps fold_left]. fold (Recognition.steps (Recognition.step s o) ops).
  rewrite IH. apply step_keeps_recognition.
Qed.

Lemma step_without_recognition (s : Recognition.State) (o : Recognition.Op) :
  Recognition.recognition s = None ->
  Recognition.isListening s = false ->
  Recognition.isListening (Recognition.step s o) = false.
Proof.
  intros Hr Hl.
  destruct o as [[err|]| | |results resultIndex|code|];
    unfold Recognition.step, Recognition.startListening, Recognition.stopListening,
      Recognition.onresult;
    rewrite ?Hr;
    try destruct (nth_error results resultIndex) as [[|first rest]|];
    cbn; auto.
Qed.

(** X17.  Where the hook found no recognition object to create (on the
    server, or in a browser without speech recognition), nothing that follows
    turns the listening flag on: after any sequence of calls and events the
    flag is false and there is still no recognition object, and
    [startListening] only sets the error that recognition is not
    initialised. *)
Theorem no_recognition_never_listens (h : Recognition.Host)
  (ops : list Recognition.Op) (thrown : option string) :
  h <> Recognition.BrowserWithRecognition ->
  let s := Recognition.steps
             (Recognition.commit Recognition.initial (Recognition.initialize h)) ops in
  Recognition.isListening s = false
  /\ Recognition.recognition s = None
  /\ Recognition.startListening s thrown
     = [Recognition.Store
          (Recognition.SetError (Some "Speech recognition not initialized"))].
Proof.
  intros Hh s.
  assert (Hinit : Recognition.isListening
                    (Recognition.commit Recognition.initial (Recognition.initialize h))
                  = false
                  /\ Recognition.recognition
                       (Recognition.commit Recognition.initial (Recognition.initialize h))
                     = None).
  { destruct h; [split; reflexivity | split; reflexivity | now elim Hh]. }
  subst s.
  generalize dependent (Recognition.commit Recognition.initial (Recognition.initialize h)).
  intros s0 [Hl Hr].
  assert (Hinv : Recognition.isListening (Recognition.steps s0 ops) = false
                 /\ Recognition.recognition (Recognition.steps s0 ops) = None).
  { rewrite steps_keep_recognition. split; [|exact Hr].
    revert s0 Hl Hr. induction ops as [|o ops IH]; intros s0 Hl Hr; [exact Hl|].
    cbn [Recognition.steps fold_left]. fold (Recognition.steps (Recognition.step s0 o) ops).
    apply IH.
    - apply step_without_recognition; assumption.
    - rewrite step_keeps_recognition. exact Hr. }
  destruct Hinv as [Hl' Hr']. split; [exact Hl'|]. split; [exact Hr'|].
  unfold Recognition.startListening. rewrite Hr'. reflexivity.
Qed.

Lemma no_recognition_never_listens_witness :
  let s := Recognition.steps
             (Recognition.commit Recognition.initial
                (Recognition.initialize Recognition.BrowserWithoutRecognition))
             [Recognition.CallStart None; Recognition.CallStop; Recognition.CallStart None] in
  Recognition.isListening s = false
  /\ Recognition.recognition s = None
  /\ Recognition.startListening s None
     = [Recognition.Store
          (Recognition.SetError (Some "Speech recognition not initialized"))].
Proof.
  apply (no_recognition_never_listens Recognition.BrowserWithoutRecognition
           [Recognition.CallStart None; Recognition.CallStop; Recognition.CallStart None]
           None).
  discriminate.
Defined.

(** X18.  In a browser with speech recognition, the recognition object the
    hook created at its start is kept through any sequence of calls and
    events, with the settings it was given (continuous, interim results,
    [en-US]); so after any such sequence a start that does not throw leaves
    the hook listening with no error, and a stop, an end of the session or a
    recognition error leaves it not listening. *)
Theorem recognition_is_kept (ops : list Recognition.Op) (code : string) :
  let s := Recognition.steps recognition_ready ops in
  Recognition.recognition s
  = Some {| Recognition.continuous := true; Recognition.interimResults := true;
            Recognition.lang := "en-US" |}
  /\ (Recognition.isListening (Recognition.step s (Recognition.CallStart None)) = true
      /\ Recognition.error (Recognition.step s (Recognition.CallStart None)) = None)
  /\ Recognition.isListening (Recognition.step s Recognition.CallStop) = false
  /\ Recognition.isListening (Recognition.step s Recognition.Ended) = false
  /\ (Recognition.isListening (Recognition.step s (Recognition.Error code)) = false
      /\ Recognition.error (Recognition.step s (Recognition.Error code)) = Some code).
Proof.
  intros s.
  assert (Hr : Recognition.recognition s
               = Some {| Recognition.continuous := true;
                         Recognition.interimResults := true;
                         Recognition.lang := "en-US" |}).
  { subst s. rewrite steps_keep_recognition. reflexivity. }
  split; [exact Hr|].
  unfold Recognition.step, Recognition.startListening, Recognition.stopListening.
  rewrite Hr. repeat split.
Qed.

(** X19.  The transcript of the hook is the latest result, not a running
    text: after any sequence of calls and events, a result event stores the
    transcript of the first alternative of the result at [resultIndex],
    whatever the transcript was; an event whose result at that index is
    missing leaves the transcript as it was. *)
Theorem transcript_is_latest_result (s : Recognition.State) (ops : list Recognition.Op)
  (results : list (list string)) (resultIndex : nat) :
  let before := Recognition.steps s ops in
  let after := Recognition.steps s (ops ++ [Recognition.Result results resultIndex]) in
  (forall first others, nth_error results resultIndex = Some (first :: others) ->
   Recognition.transcript after = first)
  /\ (nth_error results resultIndex = None -> after = before)
  /\ Recognition.isListening after = Recognition.isListening before.
Proof.
  intros before after. subst before after. rewrite steps_app.
  set (s' := Recognition.steps s ops).
  cbn [Recognition.steps fold_left]. unfold Recognition.step, Recognition.onresult.
  destruct (nth_error results resultIndex) as [[|first rest]|]; cbn;
    (split; [|split]); try reflexivity; try discriminate.
  intros f o H. injection H as <- _. reflexivity.
Qed.

(** ** When a capture reaches the endpoint *)

(** X20.  A call of [captureImage] makes a request exactly when the camera is
    active in its render, the video element and a canvas with a 2d context
    are there, and the encoded frame carries data after the comma; in every
    other case nothing is sent. *)
Theorem captureImage_requests_iff (r : Scan.Render) (d : Scan.Dom) (u : Js.Random)
  (question : Js.Arg) (net : list FetchResult) :
  requests (fst (fst (Scan.captureImage r d u question net))) <> []
  <-> Scan.cameraActive r = true
      /\ exists image, ready d = Some image /\ has_payload image = true.
Proof.
  split.
  - intros Hq. destruct (Scan.cameraActive r) eqn:Hc.
    + split; [reflexivity|].
      destruct (ready d) as [image|] eqn:Hr.
      * exists image. split; [reflexivity|].
        destruct (has_payload image) eqn:Hp; [reflexivity|]. elim Hq.
        rewrite (captureImage_ready r d u question net image Hc Hr). cbn [fst snd].
        rewrite requests_app,
          (processImage_no_payload_trace r u image _ net Hp).
        destruct (Nat.ltb (Scan.retryCount r) Scan.maxRetries);
          destruct (Scan.voiceFeedback r); reflexivity.
      * elim Hq. unfold ready in Hr. unfold Scan.captureImage. rewrite Hc.
        destruct (Scan.videoRef d); [|reflexivity].
        destruct (Scan.canvasRef d) as [canvas|]; [|reflexivity].
        destruct (Scan.context2d canvas); [discriminate Hr | reflexivity].
    + elim Hq. unfold Scan.captureImage. rewrite Hc.
      destruct (Scan.videoRef d), (Scan.canvasRef d); reflexivity.
  - intros (Hc & image & Hr & Hp).
    rewrite (captureImage_ready r d u question net image Hc Hr). cbn [fst snd].
    destruct (request_of_payload r u image
                (if Js.arg_truthy question then Some (Js.to_string question) else None)
                net Hp) as (data & _ & _ & Hq).
    rewrite requests_app, Hq. discriminate.
Qed.


